(** * wordserve: the corpus filter scripts

    A shallow embedding of [scripts/filter.py] and
    [scripts/filter_corpus.py]: the gibberish classifier [is_gibberish]
    and the text cleaner [clean_text] of each script, together with the
    fragment of Python's [str] and [re] they are written in.

    A Python [str] is a sequence of Unicode code points; it is modelled
    as a list of code points, a code point being a number of type [N]. *)

From Stdlib Require Import NArith List Bool Lia Ascii String.
From stdpp Require Import base decidable countable gmap list strings.
Import ListNotations.

Abbreviation char := N (only parsing).
Abbreviation str := (list N) (only parsing).

(** The code points of a literal of the scripts (all of them are ASCII). *)
Definition lit (s : string) : str :=
  List.map N_of_ascii (list_ascii_of_string s).

(** ** The Python runtime: [str] methods and [re] *)

Module Py.

Local Open Scope N_scope.

(** The regular expression class [[a-z]]. *)
Definition is_az (c : char) : bool := (97 <=? c) && (c <=? 122).

(** The regular expression class [[aeiou]]. *)
Definition is_vowel (c : char) : bool :=
  existsb (N.eqb c) [97; 101; 105; 111; 117].

(** What [str.split()] and [str.strip()] take for white space
    (CPython's [_PyUnicode_IsWhitespace]). *)
Definition isspace (c : char) : bool :=
  ((9 <=? c) && (c <=? 13)) || ((28 <=? c) && (c <=? 32))
  || (c =? 133) || (c =? 160) || (c =? 5760)
  || ((8192 <=? c) && (c <=? 8202))
  || (c =? 8232) || (c =? 8233) || (c =? 8239) || (c =? 8287)
  || (c =? 12288).

Definition is_ascii (c : char) : bool := c <? 128.

(** ASCII lowering, a code point at a time. *)
Definition ascii_lower (c : char) : char :=
  if (65 <=? c) && (c <=? 90) then c + 32 else c.

Local Close Scope N_scope.

Section UnicodeTables.

(** The two tables of the Unicode database the scripts reach, through
    [str.lower()] and through the class [\d] of a [str] pattern, are
    not part of the repository: the development is parametric in them.
    [unicode_lower] is [str.lower()] on a string that has a non-ASCII
    code point; [unicode_Nd] tells the decimal digits (category Nd)
    among the non-ASCII code points. *)
Variable unicode_lower : str -> str.
Variable unicode_Nd : char -> bool.

(** [str.lower()]: CPython lowers an all-ASCII string byte by byte and
    goes through the Unicode database otherwise. *)
Definition lower (s : str) : str :=
  if forallb is_ascii s then List.map ascii_lower s else unicode_lower s.

(** The class [\d] of a [str] pattern: [0-9] and the other decimal
    digits of Unicode. *)
Definition isdigit (c : char) : bool :=
  if is_ascii c then (48 <=? c)%N && (c <=? 57)%N else unicode_Nd c.

End UnicodeTables.

Definition is_empty (s : str) : bool :=
  match s with [] => true | _ :: _ => false end.

(** Longest prefix of code points that satisfy [p], and what follows it. *)
Fixpoint take_while (p : char -> bool) (s : str) : str :=
  match s with
  | c :: s' => if p c then c :: take_while p s' else []
  | [] => []
  end.

Fixpoint drop_while (p : char -> bool) (s : str) : str :=
  match s with
  | c :: s' => if p c then drop_while p s' else s
  | [] => []
  end.

(** [str.strip()]: leading and trailing white space removed. *)
Definition lstrip (s : str) : str := drop_while isspace s.
Definition rstrip (s : str) : str := rev (drop_while isspace (rev s)).
Definition strip (s : str) : str := rstrip (lstrip s).

(** [str.split()]: the maximal runs of code points that are not white
    space, from left to right. [cur] is the run being read. *)
Definition flush (cur : str) : list str :=
  match cur with [] => [] | _ :: _ => [cur] end.

Fixpoint split_from (cur : str) (s : str) : list str :=
  match s with
  | [] => flush cur
  | c :: s' =>
      if isspace c then flush cur ++ split_from [] s'
      else split_from (cur ++ [c]) s'
  end.

Definition split (s : str) : list str := split_from [] s.

(** [sep.join(words)]. *)
Fixpoint join (sep : str) (words : list str) : str :=
  match words with
  | [] => []
  | [w] => w
  | w :: ws => w ++ sep ++ join sep ws
  end.

(** [pattern in word]: [pattern] is a contiguous part of [word]. *)
Fixpoint startswith (pattern word : str) : bool :=
  match pattern, word with
  | [], _ => true
  | _ :: _, [] => false
  | a :: p', b :: w' => (a =? b)%N && startswith p' w'
  end.

Fixpoint contains (pattern word : str) : bool :=
  startswith pattern word
  || match word with [] => false | _ :: w' => contains pattern w' end.

(** [re.search(r"(.)\1{3,}", word)]: a code point other than the line
    feed (the dot does not match it) followed by itself three more
    times.  The result is used as a truth value only. *)
Fixpoint search_rep4 (word : str) : bool :=
  match word with
  | c :: w' =>
      match w' with
      | c1 :: c2 :: c3 :: _ =>
          (negb (c =? 10) && (c1 =? c) && (c2 =? c) && (c3 =? c))%N
          || search_rep4 w'
      | _ => false
      end
  | [] => false
  end.

(** [re.search(r"[aeiou]", word)], as a truth value. *)
Definition search_vowel (word : str) : bool := existsb is_vowel word.

(** [re.sub(pattern, repl, s)] for a pattern that matches no empty string:
    [match_at s'] is the length of the match of the pattern that starts
    at the head of the suffix [s'] of the text, if there is one.  The
    text is scanned from the left; a match is replaced by [repl] and the
    scan goes on after it ([skip] code points of the match are still to
    be passed over); a code point at which nothing matches is copied. *)
Fixpoint sub_from (match_at : str -> option nat) (repl : str)
    (skip : nat) (s : str) : str :=
  match s with
  | [] => []
  | c :: s' =>
      match skip with
      | S k => sub_from match_at repl k s'
      | O =>
          match match_at s with
          | Some (S k) => repl ++ sub_from match_at repl k s'
          | _ => c :: sub_from match_at repl 0 s'
          end
      end
  end.

Definition sub (match_at : str -> option nat) (repl : str) (s : str) : str :=
  sub_from match_at repl 0 s.

(** The pattern [@@\d+] at the head of [s]: two at signs, then the
    longest run of digits, which has to be non-empty. *)
Definition marker_at (isdigit : char -> bool) (s : str) : option nat :=
  match s with
  | a :: b :: s' =>
      if ((a =? 64) && (b =? 64))%N then
        let ds := take_while isdigit s' in
        match ds with
        | [] => None
        | _ :: _ => Some (2 + length ds)
        end
      else None
  | _ => None
  end.

(** The pattern [<[^>]+>] at the head of [s]: a [<], the longest run of
    code points other than [>], which has to be non-empty, and a [>]. *)
Definition not_gt (c : char) : bool := negb (c =? 62)%N.

Definition tag_at (s : str) : option nat :=
  match s with
  | a :: s' =>
      if (a =? 60)%N then
        let body := take_while not_gt s' in
        match body, drop_while not_gt s' with
        | _ :: _, _ :: _ => Some (1 + length body + 1)
        | _, _ => None
        end
      else None
  | [] => None
  end.

(** The pattern [[^a-z]] at the head of [s]. *)
Definition nonalpha_at (s : str) : option nat :=
  match s with
  | c :: _ => if is_az c then None else Some 1
  | [] => None
  end.

End Py.

(** ** scripts/filter.py *)

Module Filter.

(** [get_stop_words]: this script filters with an empty set. *)
Definition get_stop_words : gset str := ∅.

(** The table [kbd_patt] of [is_gibberish], in the order of the source. *)
Definition kbd_patt : list str :=
  List.map lit
    [ "qwert"; "asdfg"; "zxcvb"; "yuiop"; "hjkl"; "bnm"; "poiuy"; "lkjhg";
      "fdsa"; "mnbvc"; "qazwsx"; "edcrfv"; "tgbnhy"; "ujmki"; "plm"; "qaz";
      "wsx"; "edc"; "rfv"; "tgb"; "yhn"; "ujm"; "ikm"; " plm" ]%string.

(** The loop [for pattern in kbd_patt: if pattern in word: return True],
    followed by [return False]. *)
Fixpoint scan_patterns (patterns : list str) (word : str) : bool :=
  match patterns with
  | [] => false
  | pattern :: rest =>
      if Py.contains pattern word then true else scan_patterns rest word
  end.

(** The body of [is_gibberish], over the table it scans. *)
Definition is_gibberish_over (patterns : list str) (word : str) : bool :=
  if length word <? 2 then true
  else if 32 <? length word then true
  else if Py.search_rep4 word then true
  else if (5 <? length word) && negb (Py.search_vowel word) then true
  else scan_patterns patterns word.

Definition is_gibberish (word : str) : bool :=
  is_gibberish_over kbd_patt word.

Section CleanText.

Variable unicode_lower : str -> str.
Variable unicode_Nd : char -> bool.

(** One turn of the loop [for word in text.split()]: [words] is the
    list built so far. *)
Definition loop_body (stop_words : gset str) (words : list str)
    (word : str) : list str :=
  let clean_word := Py.lower unicode_lower word in
  let clean_word := Py.sub Py.nonalpha_at [] clean_word in
  if negb (Py.is_empty clean_word)
     && negb (bool_decide (clean_word ∈ stop_words))
     && negb (is_gibberish clean_word)
  then words ++ [clean_word]
  else words.

Definition clean_text (text : str) (stop_words : gset str) : str :=
  if Py.is_empty text || Py.is_empty (Py.strip text) then []
  else
    let words := [] in
    let text := Py.sub (Py.marker_at (Py.isdigit unicode_Nd)) (lit " ") text in
    let text := Py.sub Py.tag_at (lit " ") text in
    let words := fold_left (loop_body stop_words) (Py.split text) words in
    Py.join (lit " ") words.

End CleanText.

End Filter.

(** ** scripts/filter_corpus.py *)

Module FilterCorpus.

(** The table [keyboard_patterns] of [is_gibberish]. *)
Definition keyboard_patterns : list str :=
  List.map lit
    [ "qwert"; "asdfg"; "zxcvb"; "yuiop"; "hjkl"; "bnm";
      "poiuy"; "lkjhg"; "fdsa"; "mnbvc" ]%string.

Fixpoint scan_patterns (patterns : list str) (word : str) : bool :=
  match patterns with
  | [] => false
  | pattern :: rest =>
      if Py.contains pattern word then true else scan_patterns rest word
  end.

Definition is_gibberish (word : str) : bool :=
  if length word <? 2 then true
  else if 25 <? length word then true
  else if Py.search_rep4 word then true
  else if (5 <? length word) && negb (Py.search_vowel word) then true
  else scan_patterns keyboard_patterns word.

Section CleanText.

Variable unicode_lower : str -> str.
Variable unicode_Nd : char -> bool.

Definition loop_body (stop_words : gset str) (words : list str)
    (word : str) : list str :=
  let clean_word := Py.lower unicode_lower word in
  let clean_word := Py.sub Py.nonalpha_at [] clean_word in
  if negb (Py.is_empty clean_word)
     && negb (bool_decide (clean_word ∈ stop_words))
     && negb (is_gibberish clean_word)
  then words ++ [clean_word]
  else words.

(** No guard on an empty text here: the text goes through the whole
    function. *)
Definition clean_text (text : str) (stop_words : gset str) : str :=
  let text := Py.sub (Py.marker_at (Py.isdigit unicode_Nd)) (lit " ") text in
  let text := Py.sub Py.tag_at (lit " ") text in
  let words := [] in
  let words := fold_left (loop_body stop_words) (Py.split text) words in
  Py.join (lit " ") words.

End CleanText.

End FilterCorpus.

(** ** The scripts around [clean_text] *)

(** [process_file] talks to the operating system.  A run is modelled over
    the answers the system gives to its calls, and returns, with the value
    of the function, what the run did to the file system and the terminal. *)

Module Os.

(** The classes of exception that the handlers of filter.py tell apart
    ([PermissionError] is caught before [OSError]). *)
Inductive exn := UnicodeDecodeError | PermissionError | OSError | OtherException.

Inductive result (A : Type) :=
| Ok (value : A)
| Raise (e : exn).

Arguments Ok {A} value.
Arguments Raise {A} e.

(** The answers to the calls of one run of [process_file], each call being
    made at most once in a run. *)
Record answers := {
  exists_input : bool;              (* os.path.exists(input_file) *)
  access_input : bool;              (* os.access(input_file, os.R_OK) *)
  getsize_input : result N;         (* os.path.getsize(input_file) *)
  read_input : result str;          (* open(input_file, "r", ...), f.read() *)
  dirname_output : str;             (* os.path.dirname(output_file) *)
  exists_output_dir : bool;         (* os.path.exists(output_dir) *)
  makedirs_output_dir : result unit;  (* os.makedirs(output_dir, exist_ok=True) *)
  access_output_dir : bool;         (* os.access(dirname or ".", os.W_OK) *)
  write_output : str -> result unit (* open(output_file, "w", ...), f.write(text) *)
}.

(** The lines the scripts print, one for each [print] of [process_file]. *)
Inductive message :=
| Input_missing | Input_unreadable | Empty_file | File_too_large
| No_readable_text | No_content_remaining | Output_dir_unwritable
| Cannot_decode | Permission_denied | Os_error | Unexpected_error
| Error_processing.

(** What a run does: it prints a line, makes the output directory, or
    opens the output file and writes a text into it; [done] tells whether
    the writing went through. *)
Inductive effect :=
| Print (line : message)
| Makedirs
| Write (text : str) (done : bool).

Definition is_print (e : effect) : bool :=
  match e with Print _ => true | _ => false end.

End Os.

Module FilterScript.

Import Os.

(** The [except] clauses of [process_file], in their order. *)
Definition handler (e : exn) : message :=
  match e with
  | UnicodeDecodeError => Cannot_decode
  | PermissionError => Permission_denied
  | OSError => Os_error
  | OtherException => Unexpected_error
  end.

Section ProcessFile.

Variable unicode_lower : str -> str.
Variable unicode_Nd : char -> bool.

(** The end of [process_file], from the test of the output directory on;
    [done] is what the run did so far. *)
Definition write_filtered (os : answers) (filtered_text : str)
    (done : list effect) : bool * list effect :=
  if negb (access_output_dir os) then
    (false, done ++ [Print Output_dir_unwritable])
  else
    match write_output os filtered_text with
    | Raise e => (false, done ++ [Write filtered_text false; Print (handler e)])
    | Ok _ => (true, done ++ [Write filtered_text true])
    end.

Definition process_file (os : answers) (stop_words : gset str)
    : bool * list effect :=
  if negb (exists_input os) then (false, [Print Input_missing])
  else if negb (access_input os) then (false, [Print Input_unreadable])
  else
    match getsize_input os with
    | Raise e => (false, [Print (handler e)])
    | Ok file_size =>
        if (file_size =? 0)%N then (false, [Print Empty_file])
        else if (100 * 1024 * 1024 <? file_size)%N then
          (false, [Print File_too_large])
        else
          match read_input os with
          | Raise e => (false, [Print (handler e)])
          | Ok text =>
              if Py.is_empty text || Py.is_empty (Py.strip text) then
                (false, [Print No_readable_text])
              else
                let filtered_text :=
                  Filter.clean_text unicode_lower unicode_Nd text stop_words in
                let done :=
                  if Py.is_empty filtered_text
                  then [Print No_content_remaining] else [] in
                let output_dir := dirname_output os in
                if negb (Py.is_empty output_dir)
                   && negb (exists_output_dir os)
                then
                  match makedirs_output_dir os with
                  | Raise e => (false, done ++ [Print (handler e)])
                  | Ok _ => write_filtered os filtered_text (done ++ [Makedirs])
                  end
                else write_filtered os filtered_text done
          end
    end.




End ProcessFile.

End FilterScript.

Module FilterCorpusScript.

Import Os.

(** The set [contractions] of [get_stop_words]. *)
Definition contractions : list str :=
  List.map lit
    [ "im"; "youre"; "hes"; "shes"; "its"; "were"; "theyre";
      "ill"; "youll"; "hell"; "shell"; "itll"; "well"; "theyll";
      "cant"; "dont"; "wont"; "couldnt"; "shouldnt"; "wouldnt";
      "ive"; "youve"; "weve"; "theyve" ]%string.

Section StopWords.

(** [stopwords.words('english')]: the list comes with NLTK, not with the
    repository. *)
Variable nltk_english : list str.

Definition get_stop_words : gset str :=
  let stop_words : gset str := list_to_set nltk_english in
  stop_words ∪ list_to_set contractions.

End StopWords.

Section ProcessFile.

Variable unicode_lower : str -> str.
Variable unicode_Nd : char -> bool.

(** Here one handler catches every exception. *)
Definition process_file (os : answers) (stop_words : gset str)
    : bool * list effect :=
  match read_input os with
  | Raise _ => (false, [Print Error_processing])
  | Ok text =>
      let filtered_text :=
        FilterCorpus.clean_text unicode_lower unicode_Nd text stop_words in
      match write_output os filtered_text with
      | Raise _ => (false, [Write filtered_text false; Print Error_processing])
      | Ok _ => (true, [Write filtered_text true])
      end
  end.

End ProcessFile.

End FilterCorpusScript.

(** ** Instances and vocabulary of the properties *)

(** A runtime that knows ASCII only: nothing but [0-9] is a digit and a
    string with another code point is left as it is by [lower]. *)
Definition ascii_only_lower (s : str) : str := s.
Definition ascii_only_Nd (c : char) : bool := false.

(** A normalized token: a string that matches [[a-z]*]. *)
Definition normalized (w : str) : Prop := Forall (fun c => Py.is_az c = true) w.

(** [p] occurs in [w] as a contiguous part. *)
Definition substring (p w : str) : Prop := exists pre post, w = pre ++ p ++ post.

(** Some code point occurs four times in a row in [w]. *)
Definition has_run4 (w : str) : Prop :=
  exists c pre post, w = pre ++ [c; c; c; c] ++ post.

(** No code point of [w] is one of a, e, i, o, u. *)
Definition vowel_free (w : str) : Prop :=
  Forall (fun c => ~ In c (lit "aeiou")) w.

(** A token of a cleaned text: it matches [[a-z]+]. *)
Definition az_token (w : str) : Prop := w <> [] /\ normalized w.

(** The steps of [clean_text], named as the specification names them. *)

(** The text with its [@@] markers and then its tags replaced by a space. *)
Definition strip_markup (unicode_Nd : char -> bool) (text : str) : str :=
  Py.sub Py.tag_at (lit " ")
    (Py.sub (Py.marker_at (Py.isdigit unicode_Nd)) (lit " ") text).

(** A token lowered and rid of what is not in [[a-z]]. *)
Definition normalize (unicode_lower : str -> str) (word : str) : str :=
  Py.sub Py.nonalpha_at [] (Py.lower unicode_lower word).

(** A normalized token is kept: it is not empty, not a stop word and not
    gibberish for the classifier [gibberish]. *)
Definition survives (gibberish : str -> bool) (stop_words : gset str)
    (w : str) : bool :=
  negb (Py.is_empty w) && negb (bool_decide (w ∈ stop_words))
  && negb (gibberish w).

(** The normalized tokens of the text that are kept, in the order of the
    tokens of the text. *)
Definition surviving_tokens (gibberish : str -> bool)
    (unicode_lower : str -> str) (unicode_Nd : char -> bool)
    (text : str) (stop_words : gset str) : list str :=
  List.filter (survives gibberish stop_words)
    (List.map (normalize unicode_lower) (Py.split (strip_markup unicode_Nd text))).

(** The entries of [kbd_patt] that [keyboard_patterns] does not have. *)
Definition filter_only_patterns : list str :=
  List.map lit
    [ "qazwsx"; "edcrfv"; "tgbnhy"; "ujmki"; "plm"; "qaz"; "wsx"; "edc";
      "rfv"; "tgb"; "yhn"; "ujm"; "ikm"; " plm" ]%string.

(** [kbd_patt] without its last entry, [" plm"]. *)
Definition kbd_patt_trimmed : list str :=
  List.map lit
    [ "qwert"; "asdfg"; "zxcvb"; "yuiop"; "hjkl"; "bnm"; "poiuy"; "lkjhg";
      "fdsa"; "mnbvc"; "qazwsx"; "edcrfv"; "tgbnhy"; "ujmki"; "plm"; "qaz";
      "wsx"; "edc"; "rfv"; "tgb"; "yhn"; "ujm"; "ikm" ]%string.

(** [is_gibberish] of filter.py, had the table no [" plm"] entry. *)
Definition is_gibberish_trimmed (word : str) : bool :=
  Filter.is_gibberish_over kbd_patt_trimmed word.

(** The 26 letters in a row: a token longer than 25. *)
Definition alphabet : str := lit "abcdefghijklmnopqrstuvwxyz".

(** The shape of a cleaned text: empty, or tokens that match [[a-z]+]
    with one space between two of them. *)
Definition cleaned_shape (out : str) : Prop :=
  out = [] \/
  exists toks, toks <> [] /\ Forall az_token toks /\ out = Py.join (lit " ") toks.

(** What holds of a token that [clean_text] keeps. *)
Definition kept_token (gibberish : str -> bool) (stop_words : gset str)
    (w : str) : Prop :=
  az_token w /\ (w ∉ stop_words) /\ gibberish w = false.

(** No [<], no [>], no at sign (hence no [@@] marker) and no digit. *)
Definition markup_free (unicode_Nd : char -> bool) (out : str) : Prop :=
  Forall (fun c => c <> 60%N /\ c <> 62%N /\ c <> 64%N
                   /\ Py.isdigit unicode_Nd c = false) out
  /\ ~ substring (lit "@@") out.

(** What the specification asks of a cleaned text. *)
Definition well_formed_output (unicode_Nd : char -> bool) (out : str) : Prop :=
  cleaned_shape out /\ Py.strip out = out /\ markup_free unicode_Nd out.

(** The stop words of the example of the specification. *)
Definition the_and : gset str := {[ lit "the"; lit "and" ]}.

(** A text without an at sign and without a [<]: no marker and no tag can
    start in it. *)
Definition plain (s : str) : Prop := Forall (fun c => c <> 64%N /\ c <> 60%N) s.

(** The text does not start with a digit. *)
Definition no_digit_ahead (unicode_Nd : char -> bool) (s : str) : Prop :=
  match s with [] => True | c :: _ => Py.isdigit unicode_Nd c = false end.

(** A text of white space only; the empty text is one. *)
Definition blank (text : str) : Prop :=
  Forall (fun c => Py.isspace c = true) text.

(** The input file passes the tests of [process_file] of filter.py and
    [text] is read from it: the file is there, can be read, has from 1 to
    104857600 bytes, and the text is not blank. *)
Definition input_accepted (os : Os.answers) (text : str) : Prop :=
  Os.exists_input os = true /\ Os.access_input os = true
  /\ (exists file_size,
        Os.getsize_input os = Os.Ok file_size
        /\ (0 < file_size <= 104857600)%N)
  /\ Os.read_input os = Os.Ok text /\ ~ blank text.


(** A system that lets every call through, for a file that holds [text]
    in [size] bytes. *)
Definition willing_system (size : N) (text : str) : Os.answers :=
  {| Os.exists_input := true;
     Os.access_input := true;
     Os.getsize_input := Os.Ok size;
     Os.read_input := Os.Ok text;
     Os.dirname_output := lit "cleaned-texts";
     Os.exists_output_dir := false;
     Os.makedirs_output_dir := Os.Ok tt;
     Os.access_output_dir := true;
     Os.write_output := fun _ => Os.Ok tt |}.

(** A system on which the input file cannot be read. *)
Definition unreadable_system : Os.answers :=
  {| Os.exists_input := true;
     Os.access_input := false;
     Os.getsize_input := Os.Raise Os.PermissionError;
     Os.read_input := Os.Raise Os.PermissionError;
     Os.dirname_output := lit "cleaned-texts";
     Os.exists_output_dir := true;
     Os.makedirs_output_dir := Os.Ok tt;
     Os.access_output_dir := true;
     Os.write_output := fun _ => Os.Ok tt |}.

(** The text of three spaces, a line feed and a tabulation. *)
Definition blank_text : str := [32; 32; 32; 10; 9]%N.

(** ** Facts about the runtime fragment *)

Ltac N_cases :=
  repeat match goal with
    | |- context [N.leb ?a ?b] => destruct (N.leb_spec a b); try lia
    | |- context [N.eqb ?a ?b] => destruct (N.eqb_spec a b); try lia
    | |- context [N.ltb ?a ?b] => destruct (N.ltb_spec a b); try lia
    end;
  simpl; try reflexivity; try discriminate; try lia.

Section RuntimeFacts.

Lemma is_az_bounds c : Py.is_az c = true <-> (97 <= c <= 122)%N.
Proof. unfold Py.is_az. rewrite andb_true_iff, !N.leb_le. tauto. Qed.

Lemma is_az_not_space c : Py.is_az c = true -> Py.isspace c = false.
Proof. rewrite is_az_bounds. intros H. unfold Py.isspace. N_cases. Qed.

Lemma is_az_ascii c : Py.is_az c = true -> Py.is_ascii c = true.
Proof. rewrite is_az_bounds. intros H. unfold Py.is_ascii. N_cases. Qed.

Lemma is_az_lower c : Py.is_az c = true -> Py.ascii_lower c = c.
Proof. rewrite is_az_bounds. intros H. unfold Py.ascii_lower. N_cases. Qed.

Lemma space_is_space : Py.isspace 32 = true.
Proof. reflexivity. Qed.

Lemma space_not_at c : Py.isspace c = true -> (c =? 64)%N = false.
Proof. destruct (N.eqb_spec c 64) as [->|]; [discriminate | reflexivity]. Qed.

Lemma space_not_lt c : Py.isspace c = true -> (c =? 60)%N = false.
Proof. destruct (N.eqb_spec c 60) as [->|]; [discriminate | reflexivity]. Qed.

End RuntimeFacts.

Section SubFacts.

Variable match_at : str -> option nat.
Variable repl : str.

(** Where the pattern matches at no position, [re.sub] copies the text. *)
Lemma sub_no_match (P : char -> Prop) s :
  (forall c s', P c -> match_at (c :: s') = None) ->
  Forall P s -> Py.sub match_at repl s = s.
Proof.
  intros Hm. unfold Py.sub. induction 1 as [|c s Hc Hs IH]; simpl.
  - reflexivity.
  - rewrite (Hm c s Hc). f_equal. exact IH.
Qed.

End SubFacts.

Lemma marker_at_head d c s : (c =? 64)%N = false -> Py.marker_at d (c :: s) = None.
Proof. intros H. destruct s; simpl; [reflexivity | now rewrite H]. Qed.

Lemma tag_at_head c s : (c =? 60)%N = false -> Py.tag_at (c :: s) = None.
Proof. intros H. simpl. now rewrite H. Qed.

Lemma sub_marker_id d r s :
  Forall (fun c => (c =? 64)%N = false) s -> Py.sub (Py.marker_at d) r s = s.
Proof. apply sub_no_match. intros c s'. apply marker_at_head. Qed.

Lemma sub_tag_id r s :
  Forall (fun c => (c =? 60)%N = false) s -> Py.sub Py.tag_at r s = s.
Proof. apply sub_no_match. intros c s'. apply tag_at_head. Qed.

Lemma strip_markup_id nd s :
  Forall (fun c => (c =? 64)%N = false /\ (c =? 60)%N = false) s ->
  strip_markup nd s = s.
Proof.
  intros H. unfold strip_markup.
  rewrite sub_marker_id.
  - apply sub_tag_id. eapply Forall_impl; [exact H|]. simpl. tauto.
  - eapply Forall_impl; [exact H|]. simpl. tauto.
Qed.

(** Replacing every match of [[^a-z]] by nothing keeps the letters. *)
Lemma sub_nonalpha_filter s : Py.sub Py.nonalpha_at [] s = List.filter Py.is_az s.
Proof.
  unfold Py.sub. induction s as [|c s IH]; simpl; [reflexivity|].
  destruct (Py.is_az c); simpl; [now rewrite IH|].
  destruct s; [reflexivity | exact IH].
Qed.

(** *** [split] and [join] *)

Lemma split_from_word cur w rest :
  Forall (fun c => Py.isspace c = false) w ->
  Py.split_from cur (w ++ rest) = Py.split_from (cur ++ w) rest.
Proof.
  intros H. revert cur. induction H as [|c w Hc Hw IH]; intros cur; simpl.
  - now rewrite app_nil_r.
  - rewrite Hc, IH, <- app_assoc. reflexivity.
Qed.

Lemma split_from_spaces cur s :
  Forall (fun c => Py.isspace c = true) s -> Py.split_from cur s = Py.flush cur.
Proof.
  intros H. revert cur. induction H as [|c s Hc Hs IH]; intros cur; simpl.
  - reflexivity.
  - rewrite Hc, IH. simpl. apply app_nil_r.
Qed.

Lemma split_spaces s :
  Forall (fun c => Py.isspace c = true) s -> Py.split s = [].
Proof. apply split_from_spaces. Qed.

Lemma az_token_no_space w :
  az_token w -> Forall (fun c => Py.isspace c = false) w.
Proof.
  intros [_ H]. eapply Forall_impl; [exact H|]. apply is_az_not_space.
Qed.

Lemma split_token_then sep_rest w :
  az_token w ->
  Py.split_from [] (w ++ 32%N :: sep_rest) = w :: Py.split sep_rest.
Proof.
  intros Hw. rewrite split_from_word by now apply az_token_no_space.
  simpl. destruct Hw as [Hne _]. destruct w; [contradiction | reflexivity].
Qed.

(** Splitting a text that was joined from tokens gives the tokens back. *)
Lemma split_join toks :
  Forall az_token toks -> Py.split (Py.join (lit " ") toks) = toks.
Proof.
  induction 1 as [|w ws Hw Hws IH]; [reflexivity|].
  destruct ws as [|w' ws].
  - simpl. unfold Py.split.
    rewrite <- (app_nil_r w) at 1.
    rewrite split_from_word by now apply az_token_no_space.
    simpl. destruct Hw as [Hne _]. destruct w; [contradiction | reflexivity].
  - change (Py.join (lit " ") (w :: w' :: ws))
      with (w ++ 32%N :: Py.join (lit " ") (w' :: ws)).
    unfold Py.split at 1. rewrite split_token_then by exact Hw.
    now rewrite IH.
Qed.

(** A joined text is made of letters and spaces. *)
Lemma join_chars toks :
  Forall az_token toks ->
  Forall (fun c => Py.is_az c = true \/ c = 32%N) (Py.join (lit " ") toks).
Proof.
  induction 1 as [|w ws Hw Hws IH]; [constructor|].
  assert (Hl : Forall (fun c => Py.is_az c = true \/ c = 32%N) w).
  { destruct Hw as [_ Hw]. eapply Forall_impl; [exact Hw|]. simpl. tauto. }
  destruct ws as [|w' ws]; [exact Hl|].
  change (Py.join (lit " ") (w :: w' :: ws))
    with (w ++ 32%N :: Py.join (lit " ") (w' :: ws)).
  apply Forall_app. split; [exact Hl|]. constructor; [now right | exact IH].
Qed.

(** A joined text, when not empty, starts and ends with a letter. *)
Lemma join_head toks :
  Forall az_token toks ->
  match Py.join (lit " ") toks with
  | [] => toks = []
  | c :: _ => Py.is_az c = true
  end.
Proof.
  intros H. destruct H as [|w ws [Hne Hw] Hws]; [reflexivity|].
  destruct Hw as [|c w Hc Hw]; [contradiction|].
  destruct ws; exact Hc.
Qed.

Lemma join_last toks :
  Forall az_token toks ->
  match rev (Py.join (lit " ") toks) with
  | [] => toks = []
  | c :: _ => Py.is_az c = true
  end.
Proof.
  induction 1 as [|w ws Hw Hws IH]; [reflexivity|].
  destruct ws as [|w' ws].
  - simpl. destruct Hw as [Hne Hw].
    apply Forall_rev in Hw. destruct (rev w) as [|c r] eqn:E.
    + apply (f_equal (@rev N)) in E. rewrite rev_involutive in E. contradiction.
    + now inversion Hw.
  - change (Py.join (lit " ") (w :: w' :: ws))
      with (w ++ 32%N :: Py.join (lit " ") (w' :: ws)).
    remember (Py.join (lit " ") (w' :: ws)) as J eqn:EJ. clear EJ.
    rewrite rev_app_distr. simpl.
    destruct (rev J) as [|c r]; [discriminate | exact IH].
Qed.

(** *** [strip] *)

Lemma drop_while_nil p s :
  Py.drop_while p s = [] -> Forall (fun c => p c = true) s.
Proof.
  induction s as [|c s IH]; simpl; [constructor|].
  destruct (p c) eqn:E; [|discriminate]. intros H. constructor; auto.
Qed.

Lemma drop_while_all p s :
  Forall (fun c => p c = true) s -> Py.drop_while p s = [].
Proof. induction 1 as [|c s Hc Hs IH]; simpl; [|rewrite Hc]; auto. Qed.

Lemma drop_while_head p s c r : Py.drop_while p s = c :: r -> p c = false.
Proof.
  induction s as [|a s IH]; simpl; [discriminate|].
  destruct (p a) eqn:E; [exact IH|]. intros H. now inversion H; subst.
Qed.

Lemma strip_nil_spaces s :
  Py.strip s = [] -> Forall (fun c => Py.isspace c = true) s.
Proof.
  unfold Py.strip, Py.rstrip, Py.lstrip. intros H.
  apply (f_equal (@rev N)) in H. rewrite rev_involutive in H. simpl in H.
  apply drop_while_nil, Forall_rev in H. rewrite rev_involutive in H.
  destruct (Py.drop_while Py.isspace s) as [|c r] eqn:E.
  - now apply drop_while_nil.
  - apply drop_while_head in E. inversion H; congruence.
Qed.

Lemma strip_spaces s :
  Forall (fun c => Py.isspace c = true) s -> Py.strip s = [].
Proof.
  intros H. unfold Py.strip, Py.rstrip, Py.lstrip.
  now rewrite (drop_while_all _ _ H).
Qed.

(** A text that starts and ends with something that is not white space is
    left as it is by [strip]. *)
Lemma strip_id s :
  match s with [] => True | c :: _ => Py.isspace c = false end ->
  match rev s with [] => True | c :: _ => Py.isspace c = false end ->
  Py.strip s = s.
Proof.
  intros Hh Hl. unfold Py.strip, Py.rstrip, Py.lstrip.
  assert (E : Py.drop_while Py.isspace s = s).
  { destruct s; simpl; [reflexivity | now rewrite Hh]. }
  rewrite E.
  assert (E' : Py.drop_while Py.isspace (rev s) = rev s).
  { destruct (rev s); simpl; [reflexivity | now rewrite Hl]. }
  rewrite E'. apply rev_involutive.
Qed.

(** *** Searching *)

Lemma startswith_prefix p w :
  Py.startswith p w = true <-> exists post, w = p ++ post.
Proof.
  revert w. induction p as [|a p IH]; intros w; simpl.
  - split; [intros _; now exists w | reflexivity].
  - destruct w as [|b w].
    + split; [discriminate | intros [post H]; discriminate].
    + rewrite andb_true_iff, N.eqb_eq, IH. split.
      * intros [-> [post ->]]. now exists post.
      * intros [post H]. inversion H; subst. split; [reflexivity | now exists post].
Qed.

(** [pattern in word] holds exactly of the contiguous parts of [word]. *)
Lemma contains_substring p w : Py.contains p w = true <-> substring p w.
Proof.
  unfold substring. induction w as [|b w IH].
  - simpl. rewrite orb_false_r, startswith_prefix. split.
    + intros [post H]. now exists [], post.
    + intros [pre [post H]]. destruct pre; [now exists post | discriminate].
  - change (Py.contains p (b :: w))
      with (Py.startswith p (b :: w) || Py.contains p w).
    rewrite orb_true_iff, startswith_prefix, IH. split.
    + intros [[post H] | [pre [post H]]].
      * now exists [], post.
      * exists (b :: pre), post. now rewrite H.
    + intros [[|a pre] [post H]].
      * left. now exists post.
      * right. inversion H; subst. now exists pre, post.
Qed.

Lemma contains_not_substring p w : ~ substring p w -> Py.contains p w = false.
Proof.
  intros H. destruct (Py.contains p w) eqn:E; [|reflexivity].
  now apply contains_substring in E.
Qed.

(** A match of [(.)\1{3,}] is a run of four equal code points. *)
Lemma search_rep4_run w : Py.search_rep4 w = true -> has_run4 w.
Proof.
  induction w as [|c w IH]; [discriminate|].
  destruct w as [|c1 [|c2 [|c3 w]]]; try discriminate.
  change (Py.search_rep4 (c :: c1 :: c2 :: c3 :: w))
    with ((negb (c =? 10) && (c1 =? c) && (c2 =? c) && (c3 =? c))%N
          || Py.search_rep4 (c1 :: c2 :: c3 :: w)).
  rewrite orb_true_iff, !andb_true_iff, !N.eqb_eq.
  intros [[[[_ ->] ->] ->] | H].
  - now exists c, [], w.
  - destruct (IH H) as [d [pre [post E]]].
    exists d, (c :: pre), post. now rewrite E.
Qed.

(** Without a run of four there is no match. *)
Lemma no_run4_search_rep4 w : ~ has_run4 w -> Py.search_rep4 w = false.
Proof.
  intros H. destruct (Py.search_rep4 w) eqn:E; [|reflexivity].
  now apply search_rep4_run in E.
Qed.

(** A run of four of anything but the line feed is matched. *)
Lemma run4_search_rep4 c pre post :
  c <> 10%N -> Py.search_rep4 (pre ++ [c; c; c; c] ++ post) = true.
Proof.
  intros Hc. induction pre as [|a pre IH].
  - simpl. rewrite N.eqb_refl. destruct (N.eqb_spec c 10); [contradiction | reflexivity].
  - remember (pre ++ [c; c; c; c] ++ post) as t eqn:Et.
    change ((a :: pre) ++ [c; c; c; c] ++ post) with (a :: (pre ++ [c; c; c; c] ++ post)).
    rewrite <- Et.
    destruct t as [|c1 [|c2 [|c3 t]]]; try discriminate.
    change (Py.search_rep4 (a :: c1 :: c2 :: c3 :: t))
      with ((negb (a =? 10) && (c1 =? a) && (c2 =? a) && (c3 =? a))%N
            || Py.search_rep4 (c1 :: c2 :: c3 :: t)).
    rewrite IH. apply orb_true_r.
Qed.

Lemma is_vowel_In c : Py.is_vowel c = true <-> In c (lit "aeiou").
Proof.
  unfold Py.is_vowel. rewrite existsb_exists. split.
  - intros [x [Hx E]]. apply N.eqb_eq in E. now subst.
  - intros H. exists c. split; [exact H | apply N.eqb_refl].
Qed.

Lemma search_vowel_free w : Py.search_vowel w = false <-> vowel_free w.
Proof.
  unfold Py.search_vowel, vowel_free. induction w as [|c w IH]; simpl.
  - split; [constructor | reflexivity].
  - rewrite orb_false_iff, IH. split.
    + intros [Hc Hw]. constructor; [|exact Hw].
      intros Hin. apply is_vowel_In in Hin. congruence.
    + intros H. inversion H as [|? ? Hc Hw]; subst. split; [|exact Hw].
      destruct (Py.is_vowel c) eqn:E; [|reflexivity].
      now apply is_vowel_In in E.
Qed.

(** *** The loop of [clean_text] *)

Lemma lower_normalized ul w : normalized w -> Py.lower ul w = w.
Proof.
  intros H. unfold Py.lower.
  assert (Ha : forallb Py.is_ascii w = true).
  { apply forallb_forall. intros c Hc. apply is_az_ascii.
    unfold normalized in H. rewrite List.Forall_forall in H. now apply H. }
  rewrite Ha. induction H as [|c w Hc Hw IH]; simpl; [reflexivity|].
  rewrite (is_az_lower c Hc). f_equal. apply IH.
  simpl in Ha. apply andb_true_iff in Ha. tauto.
Qed.

Lemma filter_normalized w : normalized w -> List.filter Py.is_az w = w.
Proof.
  induction 1 as [|c w Hc Hw IH]; simpl; [reflexivity|]. now rewrite Hc, IH.
Qed.

(** What [normalize] returns matches [[a-z]*] ... *)
Lemma normalize_normalized ul w : normalized (normalize ul w).
Proof.
  unfold normalize, normalized. rewrite sub_nonalpha_filter.
  apply List.Forall_forall. intros c Hc. apply List.filter_In in Hc. tauto.
Qed.

(** ... and a string that matches [[a-z]*] is left as it is. *)
Lemma normalize_id ul w : normalized w -> normalize ul w = w.
Proof.
  intros H. unfold normalize.
  now rewrite lower_normalized, sub_nonalpha_filter, filter_normalized.
Qed.

Lemma filter_loop ul sw l acc :
  fold_left (Filter.loop_body ul sw) l acc
  = acc ++ List.filter (survives Filter.is_gibberish sw) (List.map (normalize ul) l).
Proof.
  revert acc. induction l as [|w l IH]; intros acc; simpl.
  - now rewrite app_nil_r.
  - rewrite IH. unfold Filter.loop_body. fold (normalize ul w).
    unfold survives.
    destruct (negb (Py.is_empty (normalize ul w))
              && negb (bool_decide (normalize ul w ∈ sw))
              && negb (Filter.is_gibberish (normalize ul w))).
    + now rewrite <- app_assoc.
    + reflexivity.
Qed.

Lemma filter_corpus_loop ul sw l acc :
  fold_left (FilterCorpus.loop_body ul sw) l acc
  = acc ++ List.filter (survives FilterCorpus.is_gibberish sw) (List.map (normalize ul) l).
Proof.
  revert acc. induction l as [|w l IH]; intros acc; simpl.
  - now rewrite app_nil_r.
  - rewrite IH. unfold FilterCorpus.loop_body. fold (normalize ul w).
    unfold survives.
    destruct (negb (Py.is_empty (normalize ul w))
              && negb (bool_decide (normalize ul w ∈ sw))
              && negb (FilterCorpus.is_gibberish (normalize ul w))).
    + now rewrite <- app_assoc.
    + reflexivity.
Qed.

(** ** Facts about [clean_text] *)

Section CleanTextFacts.

Variable unicode_lower : str -> str.
Variable unicode_Nd : char -> bool.
Variable stop_words : gset str.

Lemma spaces_no_markup s :
  Forall (fun c => Py.isspace c = true) s ->
  Forall (fun c => (c =? 64)%N = false /\ (c =? 60)%N = false) s.
Proof.
  intros H. eapply Forall_impl; [exact H|]. simpl. intros c Hc.
  split; [now apply space_not_at | now apply space_not_lt].
Qed.

Lemma surviving_tokens_spaces gibberish s :
  Forall (fun c => Py.isspace c = true) s ->
  surviving_tokens gibberish unicode_lower unicode_Nd s stop_words = [].
Proof.
  intros H. unfold surviving_tokens.
  rewrite strip_markup_id by now apply spaces_no_markup.
  now rewrite split_spaces.
Qed.

(** Both scripts return the kept tokens joined by a space; the guard of
    filter.py is a shortcut to the same result. *)
Lemma filter_corpus_clean_text_tokens text :
  FilterCorpus.clean_text unicode_lower unicode_Nd text stop_words
  = Py.join (lit " ")
      (surviving_tokens FilterCorpus.is_gibberish unicode_lower unicode_Nd
         text stop_words).
Proof.
  unfold FilterCorpus.clean_text. cbv zeta. now rewrite filter_corpus_loop.
Qed.

Lemma filter_clean_text_tokens text :
  Filter.clean_text unicode_lower unicode_Nd text stop_words
  = Py.join (lit " ")
      (surviving_tokens Filter.is_gibberish unicode_lower unicode_Nd
         text stop_words).
Proof.
  unfold Filter.clean_text.
  destruct (Py.is_empty text || Py.is_empty (Py.strip text)) eqn:G.
  - assert (Hs : Forall (fun c => Py.isspace c = true) text).
    { apply orb_true_iff in G as [G | G].
      - destruct text; [constructor | discriminate].
      - apply strip_nil_spaces. destruct (Py.strip text); [reflexivity | discriminate]. }
    now rewrite surviving_tokens_spaces.
  - cbv zeta. now rewrite filter_loop.
Qed.

Lemma surviving_tokens_kept gibberish text :
  Forall (kept_token gibberish stop_words)
    (surviving_tokens gibberish unicode_lower unicode_Nd text stop_words).
Proof.
  unfold surviving_tokens. apply List.Forall_forall. intros w Hw.
  apply List.filter_In in Hw as [Hin Hs]. unfold survives in Hs.
  apply andb_true_iff in Hs as [Hs Hg]. apply andb_true_iff in Hs as [He Hsw].
  apply List.in_map_iff in Hin as [w0 [<- _]].
  repeat split.
  - intros E. rewrite E in He. discriminate.
  - apply normalize_normalized.
  - apply negb_true_iff, bool_decide_eq_false in Hsw. exact Hsw.
  - now apply negb_true_iff in Hg.
Qed.

Lemma kept_az_tokens gibberish toks :
  Forall (kept_token gibberish stop_words) toks -> Forall az_token toks.
Proof. intros H. eapply Forall_impl; [exact H|]. now intros w [Hw _]. Qed.

Lemma join_no_markup toks :
  Forall az_token toks ->
  Forall (fun c => (c =? 64)%N = false /\ (c =? 60)%N = false)
    (Py.join (lit " ") toks).
Proof.
  intros H. eapply Forall_impl; [exact (join_chars toks H)|]. simpl.
  intros c [Hc | ->]; [|split; reflexivity].
  apply is_az_bounds in Hc. split; apply N.eqb_neq; lia.
Qed.

(** Kept tokens, joined, are the kept tokens of the joined text. *)
Lemma surviving_tokens_join gibberish toks :
  Forall (kept_token gibberish stop_words) toks ->
  surviving_tokens gibberish unicode_lower unicode_Nd
    (Py.join (lit " ") toks) stop_words = toks.
Proof.
  intros H. pose proof (kept_az_tokens _ _ H) as Haz.
  unfold surviving_tokens.
  rewrite strip_markup_id by now apply join_no_markup.
  rewrite split_join by exact Haz. clear Haz.
  induction H as [|w ws [[Hne Hw] [Hsw Hg]] Hws IH]; [reflexivity|].
  simpl. rewrite (normalize_id _ _ Hw), IH. unfold survives.
  rewrite Hg, (bool_decide_eq_false_2 _ Hsw).
  destruct w; [contradiction | reflexivity].
Qed.

(** Where the text has no markup and its tokens match [[a-z]*] already,
    the kept tokens are chosen among the tokens themselves. *)
Lemma surviving_tokens_plain gibberish text :
  Forall (fun c => (c =? 64)%N = false /\ (c =? 60)%N = false) text ->
  Forall normalized (Py.split text) ->
  surviving_tokens gibberish unicode_lower unicode_Nd text stop_words
  = List.filter (survives gibberish stop_words) (Py.split text).
Proof.
  intros Hm Hn. unfold surviving_tokens. rewrite strip_markup_id by exact Hm.
  f_equal. induction Hn as [|w ws Hw Hws IH]; [reflexivity|].
  simpl. now rewrite (normalize_id _ _ Hw), IH.
Qed.

End CleanTextFacts.

(** ** Facts about [is_gibberish] *)

Lemma scan_patterns_same pats w :
  FilterCorpus.scan_patterns pats w = Filter.scan_patterns pats w.
Proof. induction pats as [|p pats IH]; simpl; [|rewrite IH]; reflexivity. Qed.

Lemma scan_patterns_app l1 l2 w :
  Filter.scan_patterns (l1 ++ l2) w
  = Filter.scan_patterns l1 w || Filter.scan_patterns l2 w.
Proof.
  induction l1 as [|p l1 IH]; simpl; [reflexivity|].
  destruct (Py.contains p w); [reflexivity | exact IH].
Qed.

Lemma scan_patterns_none pats w :
  Forall (fun p => ~ substring p w) pats -> Filter.scan_patterns pats w = false.
Proof.
  induction 1 as [|p pats Hp Hps IH]; simpl; [reflexivity|].
  now rewrite (contains_not_substring _ _ Hp).
Qed.

Lemma scan_patterns_found pats p w :
  In p pats -> substring p w -> Filter.scan_patterns pats w = true.
Proof.
  intros Hin Hs. apply contains_substring in Hs.
  induction pats as [|q pats IH]; simpl; [contradiction|].
  destruct Hin as [-> | Hin]; [now rewrite Hs|].
  destruct (Py.contains q w); [reflexivity | now apply IH].
Qed.

Lemma normalized_no_space w : normalized w -> ~ In 32%N w.
Proof.
  intros H Hin. unfold normalized in H. rewrite List.Forall_forall in H.
  specialize (H _ Hin). discriminate.
Qed.

Lemma normalized_no_newline w : normalized w -> ~ In 10%N w.
Proof.
  intros H Hin. unfold normalized in H. rewrite List.Forall_forall in H.
  specialize (H _ Hin). discriminate.
Qed.

(** The vowel rule of both scripts: a token longer than 5 without a vowel
    is gibberish, whatever else holds of it. *)
Lemma long_vowel_free_gibberish w :
  5 < length w -> vowel_free w ->
  Filter.is_gibberish w = true /\ FilterCorpus.is_gibberish w = true.
Proof.
  intros Hlen Hv. apply search_vowel_free in Hv.
  unfold Filter.is_gibberish, Filter.is_gibberish_over, FilterCorpus.is_gibberish.
  rewrite Hv.
  assert (E1 : (length w <? 2) = false) by (apply Nat.ltb_ge; lia).
  assert (E2 : (5 <? length w) = true) by (apply Nat.ltb_lt; lia).
  rewrite E1, E2. simpl.
  split.
  - destruct (32 <? length w); [reflexivity|].
    destruct (Py.search_rep4 w); reflexivity.
  - destruct (25 <? length w); [reflexivity|].
    destruct (Py.search_rep4 w); reflexivity.
Qed.

(** A token of 2 to 5 code points goes through the length tests and the
    vowel rule: the run test and the table decide. *)
Lemma short_token_gibberish w :
  2 <= length w <= 5 ->
  Filter.is_gibberish w = Py.search_rep4 w || Filter.scan_patterns Filter.kbd_patt w
  /\ FilterCorpus.is_gibberish w
     = Py.search_rep4 w || Filter.scan_patterns FilterCorpus.keyboard_patterns w.
Proof.
  intros Hlen.
  unfold Filter.is_gibberish, Filter.is_gibberish_over, FilterCorpus.is_gibberish.
  rewrite (scan_patterns_same FilterCorpus.keyboard_patterns w).
  assert (E1 : (length w <? 2) = false) by (apply Nat.ltb_ge; lia).
  assert (E2 : (5 <? length w) = false) by (apply Nat.ltb_ge; lia).
  assert (E3 : (32 <? length w) = false) by (apply Nat.ltb_ge; lia).
  assert (E4 : (25 <? length w) = false) by (apply Nat.ltb_ge; lia).
  rewrite E1, E2, E3, E4. simpl.
  destruct (Py.search_rep4 w); split; reflexivity.
Qed.

(** ** The properties of the specification *)

Lemma joined_tokens_well_formed nd toks :
  Forall az_token toks -> well_formed_output nd (Py.join (lit " ") toks).
Proof.
  intros H. pose proof (join_chars toks H) as Hc.
  assert (Hm : Forall (fun c => c <> 60%N /\ c <> 62%N /\ c <> 64%N
                               /\ Py.isdigit nd c = false)
                 (Py.join (lit " ") toks)).
  { eapply Forall_impl; [exact Hc|]. simpl. intros c [Haz | ->].
    - pose proof (is_az_ascii c Haz) as Ha. apply is_az_bounds in Haz.
      unfold Py.isdigit. rewrite Ha. repeat split; try lia.
      apply andb_false_iff. right. apply N.leb_gt. lia.
    - repeat split; try lia. }
  repeat split.
  - destruct toks as [|w ws]; [now left|]. right.
    exists (w :: ws). repeat split; [discriminate | exact H].
  - pose proof (join_head toks H) as Hh. pose proof (join_last toks H) as Hl.
    apply strip_id.
    + destruct (Py.join (lit " ") toks); [exact I | now apply is_az_not_space].
    + destruct (rev (Py.join (lit " ") toks)); [exact I | now apply is_az_not_space].
  - exact Hm.
  - intros [pre [post E]]. rewrite E in Hm.
    apply Forall_app in Hm as [_ Hm]. inversion Hm as [|? ? [_ [_ [Hat _]]] _].
    now apply Hat.
Qed.

(** C1. Whatever the text and the stop words, [clean_text] of either script
    returns the empty string or tokens that match [[a-z]+] with one space
    between two of them; the result has no white space at either end, no
    [<], no [>], no digit and no [@@] marker. *)
Theorem clean_text_well_formed
    (unicode_lower : str -> str) (unicode_Nd : char -> bool)
    (text : str) (stop_words : gset str) :
  well_formed_output unicode_Nd
    (Filter.clean_text unicode_lower unicode_Nd text stop_words)
  /\ well_formed_output unicode_Nd
       (FilterCorpus.clean_text unicode_lower unicode_Nd text stop_words).
Proof.
  rewrite filter_clean_text_tokens, filter_corpus_clean_text_tokens.
  split; apply joined_tokens_well_formed;
    eapply kept_az_tokens; apply surviving_tokens_kept.
Qed.

Lemma normalized_forallb w : forallb Py.is_az w = true -> normalized w.
Proof.
  intros H. apply List.Forall_forall. intros c Hc.
  rewrite forallb_forall in H. now apply H.
Qed.

Lemma not_substring_forallb pats w :
  forallb (fun p => negb (Py.contains p w)) pats = true ->
  Forall (fun p => ~ substring p w) pats.
Proof.
  intros H. apply List.Forall_forall. intros p Hp.
  rewrite forallb_forall in H. specialize (H p Hp).
  apply negb_true_iff in H. intros Hs. apply contains_substring in Hs. congruence.
Qed.

(** On a text without a line feed the search for a run of four is exact. *)
Lemma no_run4_decided w :
  ~ In 10%N w -> Py.search_rep4 w = false -> ~ has_run4 w.
Proof.
  intros Hnl Hs [c [pre [post E]]]. subst w.
  rewrite run4_search_rep4 in Hs; [discriminate|].
  intros ->. apply Hnl. apply in_or_app. right. now left.
Qed.

(** C2. A normalized token longer than 5 with none of a, e, i, o, u is
    gibberish for both scripts; a normalized token of 2 to 5 letters with
    none of these vowels, no letter four times in a row and no entry of the
    keyboard table as a part is not gibberish. *)
Theorem vowel_rule (w : str) :
  normalized w ->
  (5 < length w -> vowel_free w ->
     Filter.is_gibberish w = true /\ FilterCorpus.is_gibberish w = true)
  /\ (2 <= length w <= 5 -> vowel_free w -> ~ has_run4 w ->
      (Forall (fun p => ~ substring p w) Filter.kbd_patt ->
         Filter.is_gibberish w = false)
      /\ (Forall (fun p => ~ substring p w) FilterCorpus.keyboard_patterns ->
            FilterCorpus.is_gibberish w = false)).
Proof.
  intros _. split.
  - apply long_vowel_free_gibberish.
  - intros Hlen _ Hrun.
    destruct (short_token_gibberish w Hlen) as [-> ->].
    rewrite (no_run4_search_rep4 w Hrun). simpl.
    split; apply scan_patterns_none.
Qed.

Lemma vowel_rule_witness :
  (normalized (lit "bcdfgh")
   /\ Filter.is_gibberish (lit "bcdfgh") = true
   /\ FilterCorpus.is_gibberish (lit "bcdfgh") = true)
  /\ (normalized (lit "nth")
      /\ Filter.is_gibberish (lit "nth") = false
      /\ FilterCorpus.is_gibberish (lit "nth") = false).
Proof.
  assert (N6 : normalized (lit "bcdfgh")) by (apply normalized_forallb; reflexivity).
  assert (N3 : normalized (lit "nth")) by (apply normalized_forallb; reflexivity).
  split; (split; [assumption|]).
  - apply (proj1 (vowel_rule (lit "bcdfgh") N6)).
    + vm_compute. lia.
    + apply search_vowel_free. reflexivity.
  - assert (V : vowel_free (lit "nth")) by (apply search_vowel_free; reflexivity).
    assert (R : ~ has_run4 (lit "nth")).
    { apply no_run4_decided; [|reflexivity]. now apply normalized_no_newline. }
    assert (L : 2 <= length (lit "nth") <= 5) by (vm_compute; lia).
    destruct (proj2 (vowel_rule (lit "nth") N3) L V R) as [F C].
    split; [apply F | apply C]; apply not_substring_forallb; reflexivity.
Defined.

(** C3, as the scripts have it. ["rhythm"] has 6 letters, more than 5, and
    none of a, e, i, o, u: both scripts take it for gibberish. *)
Theorem rhythm_is_gibberish :
  length (lit "rhythm") = 6 /\ vowel_free (lit "rhythm")
  /\ Filter.is_gibberish (lit "rhythm") = true
  /\ FilterCorpus.is_gibberish (lit "rhythm") = true.
Proof.
  split; [reflexivity|]. split; [|split; reflexivity].
  apply search_vowel_free. reflexivity.
Qed.

(** C3, as the specification has it, fails in both scripts. *)
Lemma rhythm_not_accepted :
  ~ (Filter.is_gibberish (lit "rhythm") = false)
  /\ ~ (FilterCorpus.is_gibberish (lit "rhythm") = false).
Proof. split; vm_compute; discriminate. Qed.

(** C4. The examples of the specification: ["qwerty"], ["aaaa"],
    ["xyzzzzzzzzz"] and ["a"] are gibberish and ["ok"] is not, for both
    scripts. *)
Theorem gibberish_examples :
  (Filter.is_gibberish (lit "qwerty") = true
   /\ Filter.is_gibberish (lit "aaaa") = true
   /\ Filter.is_gibberish (lit "xyzzzzzzzzz") = true
   /\ Filter.is_gibberish (lit "a") = true
   /\ Filter.is_gibberish (lit "ok") = false)
  /\ (FilterCorpus.is_gibberish (lit "qwerty") = true
      /\ FilterCorpus.is_gibberish (lit "aaaa") = true
      /\ FilterCorpus.is_gibberish (lit "xyzzzzzzzzz") = true
      /\ FilterCorpus.is_gibberish (lit "a") = true
      /\ FilterCorpus.is_gibberish (lit "ok") = false).
Proof. repeat split; reflexivity. Qed.

(** C5. [clean_text] of the empty text, and of a text of white space only,
    is the empty string, whatever the stop words, in both scripts; the
    script without the guard on the empty text included. *)
Theorem clean_text_blank
    (unicode_lower : str -> str) (unicode_Nd : char -> bool)
    (stop_words : gset str) (text : str) :
  Forall (fun c => Py.isspace c = true) text ->
  Filter.clean_text unicode_lower unicode_Nd text stop_words = []
  /\ FilterCorpus.clean_text unicode_lower unicode_Nd text stop_words = [].
Proof.
  intros H.
  rewrite filter_clean_text_tokens, filter_corpus_clean_text_tokens.
  now rewrite !surviving_tokens_spaces.
Qed.

Lemma clean_text_blank_witness :
  (Forall (fun c => Py.isspace c = true) []
   /\ Filter.clean_text ascii_only_lower ascii_only_Nd [] the_and = []
   /\ FilterCorpus.clean_text ascii_only_lower ascii_only_Nd [] the_and = [])
  /\ (Forall (fun c => Py.isspace c = true) blank_text
      /\ Filter.clean_text ascii_only_lower ascii_only_Nd blank_text the_and = []
      /\ FilterCorpus.clean_text ascii_only_lower ascii_only_Nd blank_text the_and = []).
Proof.
  assert (H0 : Forall (fun c => Py.isspace c = true) []) by constructor.
  assert (H1 : Forall (fun c => Py.isspace c = true) blank_text)
    by (repeat constructor).
  split.
  - split; [exact H0|].
    exact (clean_text_blank ascii_only_lower ascii_only_Nd the_and [] H0).
  - split; [exact H1|].
    exact (clean_text_blank ascii_only_lower ascii_only_Nd the_and blank_text H1).
Defined.

(** C6. [clean_text] is idempotent in both scripts: cleaning a cleaned
    text, with the same stop words, returns it unchanged. *)
Theorem clean_text_idempotent
    (unicode_lower : str -> str) (unicode_Nd : char -> bool)
    (text : str) (stop_words : gset str) :
  Filter.clean_text unicode_lower unicode_Nd
    (Filter.clean_text unicode_lower unicode_Nd text stop_words) stop_words
  = Filter.clean_text unicode_lower unicode_Nd text stop_words
  /\ FilterCorpus.clean_text unicode_lower unicode_Nd
       (FilterCorpus.clean_text unicode_lower unicode_Nd text stop_words) stop_words
     = FilterCorpus.clean_text unicode_lower unicode_Nd text stop_words.
Proof.
  split.
  - rewrite !filter_clean_text_tokens.
    now rewrite surviving_tokens_join by apply surviving_tokens_kept.
  - rewrite !filter_corpus_clean_text_tokens.
    now rewrite surviving_tokens_join by apply surviving_tokens_kept.
Qed.

Lemma filter_sublist (f : str -> bool) (l : list str) : sublist (List.filter f l) l.
Proof.
  induction l as [|w l IH]; simpl; [constructor|].
  destruct (f w); [now apply sublist_skip | now apply sublist_cons].
Qed.

(** C7. In both scripts the tokens of the result of [clean_text] are the
    normalized tokens of the text rid of its markup that survive the
    filter, one after the other as the tokens they come from are in that
    text: a subsequence of its normalized tokens. *)
Theorem clean_text_keeps_order
    (unicode_lower : str -> str) (unicode_Nd : char -> bool)
    (text : str) (stop_words : gset str) :
  let tokens :=
    List.map (normalize unicode_lower) (Py.split (strip_markup unicode_Nd text)) in
  let out := Filter.clean_text unicode_lower unicode_Nd text stop_words in
  let out' := FilterCorpus.clean_text unicode_lower unicode_Nd text stop_words in
  (Py.split out = List.filter (survives Filter.is_gibberish stop_words) tokens
   /\ out = Py.join (lit " ") (Py.split out)
   /\ sublist (Py.split out) tokens)
  /\ (Py.split out' = List.filter (survives FilterCorpus.is_gibberish stop_words) tokens
      /\ out' = Py.join (lit " ") (Py.split out')
      /\ sublist (Py.split out') tokens).
Proof.
  cbv zeta.
  rewrite filter_clean_text_tokens, filter_corpus_clean_text_tokens.
  rewrite !split_join
    by (eapply kept_az_tokens; apply surviving_tokens_kept).
  unfold surviving_tokens.
  repeat split; try reflexivity; apply filter_sublist.
Qed.

Lemma no_markup_forallb text :
  forallb (fun c => negb (c =? 64)%N && negb (c =? 60)%N) text = true ->
  Forall (fun c => (c =? 64)%N = false /\ (c =? 60)%N = false) text.
Proof.
  intros H. apply List.Forall_forall. intros c Hc.
  rewrite forallb_forall in H. specialize (H c Hc).
  apply andb_true_iff in H as [H1 H2]. now rewrite !negb_true_iff in H1, H2.
Qed.

Lemma all_normalized_forallb (l : list str) :
  forallb (forallb Py.is_az) l = true -> Forall normalized l.
Proof.
  intros H. apply List.Forall_forall. intros w Hw.
  rewrite forallb_forall in H. now apply normalized_forallb, H.
Qed.

(** C8. With the stop words ["the"] and ["and"], [clean_text] of
    ["the cat and the hat"] is ["cat hat"] in both scripts; and no token of
    a result of [clean_text] is one of the stop words it was given. *)
Theorem stop_words_dropped
    (unicode_lower : str -> str) (unicode_Nd : char -> bool) :
  (Filter.clean_text unicode_lower unicode_Nd (lit "the cat and the hat") the_and
   = lit "cat hat"
   /\ FilterCorpus.clean_text unicode_lower unicode_Nd
        (lit "the cat and the hat") the_and
      = lit "cat hat")
  /\ (forall (text : str) (stop_words : gset str),
        Forall (fun w => w ∉ stop_words)
          (Py.split (Filter.clean_text unicode_lower unicode_Nd text stop_words))
        /\ Forall (fun w => w ∉ stop_words)
             (Py.split
                (FilterCorpus.clean_text unicode_lower unicode_Nd text stop_words))).
Proof.
  split.
  - rewrite filter_clean_text_tokens, filter_corpus_clean_text_tokens.
    rewrite !surviving_tokens_plain
      by (first [apply no_markup_forallb | apply all_normalized_forallb];
          reflexivity).
    split; vm_compute; reflexivity.
  - intros text stop_words.
    rewrite filter_clean_text_tokens, filter_corpus_clean_text_tokens.
    rewrite !split_join
      by (eapply kept_az_tokens; apply surviving_tokens_kept).
    split; (eapply Forall_impl; [apply surviving_tokens_kept|]);
      simpl; intros w H; apply H.
Qed.

(** C9. The tables of the two classifiers differ by the 14 entries of
    [filter_only_patterns]; on a normalized token of at most 25 letters
    that has none of these as a part the classifiers agree; a token of 26
    to 32 code points that filter.py accepts is gibberish for
    filter_corpus.py, and the 26 letters in a row are such a token. *)
Theorem classifiers_compared :
  Filter.kbd_patt = FilterCorpus.keyboard_patterns ++ filter_only_patterns
  /\ (forall w : str,
        normalized w -> length w <= 25 ->
        Forall (fun p => ~ substring p w) filter_only_patterns ->
        Filter.is_gibberish w = FilterCorpus.is_gibberish w)
  /\ (forall w : str,
        26 <= length w <= 32 -> Filter.is_gibberish w = false ->
        FilterCorpus.is_gibberish w = true)
  /\ (normalized alphabet /\ length alphabet = 26
      /\ Filter.is_gibberish alphabet = false
      /\ FilterCorpus.is_gibberish alphabet = true).
Proof.
  split; [reflexivity|]. split; [|split].
  - intros w _ Hlen Hp.
    unfold Filter.is_gibberish, Filter.is_gibberish_over, FilterCorpus.is_gibberish.
    rewrite (scan_patterns_same FilterCorpus.keyboard_patterns w).
    assert (E1 : (32 <? length w) = false) by (apply Nat.ltb_ge; lia).
    assert (E2 : (25 <? length w) = false) by (apply Nat.ltb_ge; lia).
    rewrite E1, E2.
    change Filter.kbd_patt with (FilterCorpus.keyboard_patterns ++ filter_only_patterns).
    rewrite scan_patterns_app, (scan_patterns_none _ _ Hp), orb_false_r.
    reflexivity.
  - intros w Hlen _. unfold FilterCorpus.is_gibberish.
    assert (E1 : (length w <? 2) = false) by (apply Nat.ltb_ge; lia).
    assert (E2 : (25 <? length w) = true) by (apply Nat.ltb_lt; lia).
    now rewrite E1, E2.
  - split; [apply normalized_forallb; reflexivity|].
    repeat split; reflexivity.
Qed.

Lemma classifiers_compared_witness :
  (normalized (lit "plan") /\ length (lit "plan") <= 25
   /\ Forall (fun p => ~ substring p (lit "plan")) filter_only_patterns
   /\ Filter.is_gibberish (lit "plan") = FilterCorpus.is_gibberish (lit "plan"))
  /\ (26 <= length alphabet <= 32 /\ Filter.is_gibberish alphabet = false
      /\ FilterCorpus.is_gibberish alphabet = true).
Proof.
  assert (Hn : normalized (lit "plan")) by (apply normalized_forallb; reflexivity).
  assert (Hl : length (lit "plan") <= 25) by (vm_compute; lia).
  assert (Hp : Forall (fun p => ~ substring p (lit "plan")) filter_only_patterns)
    by (apply not_substring_forallb; reflexivity).
  assert (Ha : 26 <= length alphabet <= 32) by (vm_compute; lia).
  assert (Hf : Filter.is_gibberish alphabet = false) by reflexivity.
  split.
  - repeat (split; [assumption|]).
    exact (proj1 (proj2 classifiers_compared) (lit "plan") Hn Hl Hp).
  - repeat (split; [assumption|]).
    exact (proj1 (proj2 (proj2 classifiers_compared)) alphabet Ha Hf).
Defined.

(** C10. The last entry of [kbd_patt], [" plm"], changes nothing: without
    it [is_gibberish] of filter.py returns the same on every string, since
    a string with [" plm"] as a part has ["plm"], an entry of the table, as
    a part; and a normalized token has no space, hence no [" plm"]. *)
Theorem space_plm_redundant :
  Filter.kbd_patt = kbd_patt_trimmed ++ [lit " plm"]
  /\ In (lit "plm") kbd_patt_trimmed
  /\ (forall w : str, Filter.is_gibberish w = is_gibberish_trimmed w)
  /\ (forall w : str, substring (lit " plm") w -> substring (lit "plm") w)
  /\ (forall w : str, normalized w -> ~ substring (lit " plm") w).
Proof.
  assert (Hin : In (lit "plm") kbd_patt_trimmed).
  { unfold kbd_patt_trimmed. apply List.in_map. simpl. tauto. }
  assert (Hsub : forall w : str,
             substring (lit " plm") w -> substring (lit "plm") w).
  { intros w [pre [post E]]. exists (pre ++ [32%N]), post.
    rewrite E, <- app_assoc. reflexivity. }
  split; [reflexivity|]. split; [exact Hin|]. split; [|split; [exact Hsub|]].
  - intros w.
    unfold Filter.is_gibberish, is_gibberish_trimmed, Filter.is_gibberish_over.
    change Filter.kbd_patt with (kbd_patt_trimmed ++ [lit " plm"]).
    rewrite scan_patterns_app.
    destruct (Py.contains (lit " plm") w) eqn:E.
    + apply contains_substring, Hsub in E.
      now rewrite (scan_patterns_found _ _ _ Hin E).
    + simpl Filter.scan_patterns at 2.
      change (Py.contains (List.map N_of_ascii (list_ascii_of_string " plm")) w)
        with (Py.contains (lit " plm") w).
      rewrite E, orb_false_r. reflexivity.
  - intros w Hn [pre [post E]]. apply (normalized_no_space w Hn).
    rewrite E. apply in_or_app. right. now left.
Qed.

Lemma space_plm_redundant_witness :
  (substring (lit " plm") (lit "a plm") /\ substring (lit "plm") (lit "a plm"))
  /\ (normalized (lit "plum") /\ ~ substring (lit " plm") (lit "plum"))
  /\ Filter.is_gibberish (lit "a plm") = is_gibberish_trimmed (lit "a plm").
Proof.
  assert (Hs : substring (lit " plm") (lit "a plm")) by (now exists (lit "a"), []).
  assert (Hn : normalized (lit "plum")) by (apply normalized_forallb; reflexivity).
  split; [|split].
  - split; [exact Hs|].
    exact (proj1 (proj2 (proj2 (proj2 space_plm_redundant))) (lit "a plm") Hs).
  - split; [exact Hn|].
    exact (proj2 (proj2 (proj2 (proj2 space_plm_redundant))) (lit "plum") Hn).
  - exact (proj1 (proj2 (proj2 space_plm_redundant)) (lit "a plm")).
Defined.

(** ** Further properties of the classifiers *)

Lemma scan_patterns_false pats w :
  Filter.scan_patterns pats w = false
  <-> Forall (fun p => ~ substring p w) pats.
Proof.
  split; [|apply scan_patterns_none].
  induction pats as [|p pats IH]; simpl; [constructor|].
  destruct (Py.contains p w) eqn:E; [discriminate|].
  intros H. constructor; [|now apply IH].
  intros Hs. apply contains_substring in Hs. congruence.
Qed.

Lemma vowel_rule_false w :
  (5 <? length w) && negb (Py.search_vowel w) = false
  <-> length w <= 5 \/ ~ vowel_free w.
Proof.
  rewrite andb_false_iff, Nat.ltb_ge, negb_false_iff. split.
  - intros [H | H]; [now left | right].
    intros Hv. apply search_vowel_free in Hv. congruence.
  - intros [H | H]; [now left | right].
    destruct (Py.search_vowel w) eqn:E; [reflexivity|].
    now apply search_vowel_free in E.
Qed.

Lemma search_rep4_false w :
  ~ In 10%N w -> Py.search_rep4 w = false <-> ~ has_run4 w.
Proof.
  intros Hnl. split; [now apply no_run4_decided | apply no_run4_search_rep4].
Qed.

(** X1. What [is_gibberish] of filter.py accepts, on a string without a line
    feed: 2 to 32 code points, no code point four times in a row, a vowel
    when longer than 5, and no entry of [kbd_patt] as a part. *)
Theorem filter_accepts_iff (w : str) :
  ~ In 10%N w ->
  Filter.is_gibberish w = false
  <-> 2 <= length w <= 32 /\ ~ has_run4 w
      /\ (length w <= 5 \/ ~ vowel_free w)
      /\ Forall (fun p => ~ substring p w) Filter.kbd_patt.
Proof.
  intros Hnl.
  rewrite <- (search_rep4_false w Hnl), <- vowel_rule_false, <- scan_patterns_false.
  unfold Filter.is_gibberish, Filter.is_gibberish_over.
  destruct (Nat.ltb_spec (length w) 2);
    [split; [discriminate | intros [? _]; lia]|].
  destruct (Nat.ltb_spec 32 (length w));
    [split; [discriminate | intros [? _]; lia]|].
  destruct (Py.search_rep4 w);
    [split; [discriminate | intros [_ [? _]]; discriminate]|].
  destruct ((5 <? length w) && negb (Py.search_vowel w));
    [split; [discriminate | intros [_ [_ [? _]]]; discriminate]|].
  split; [intros E; repeat split; auto; lia | tauto].
Qed.

Lemma filter_accepts_iff_witness :
  ~ In 10%N (lit "word")
  /\ (Filter.is_gibberish (lit "word") = false
      <-> 2 <= length (lit "word") <= 32 /\ ~ has_run4 (lit "word")
          /\ (length (lit "word") <= 5 \/ ~ vowel_free (lit "word"))
          /\ Forall (fun p => ~ substring p (lit "word")) Filter.kbd_patt).
Proof.
  assert (H : ~ In 10%N (lit "word")).
  { apply normalized_no_newline, normalized_forallb. reflexivity. }
  split; [exact H | exact (filter_accepts_iff (lit "word") H)].
Defined.

(** X2. The same for filter_corpus.py, with 25 for 32 and its shorter table. *)
Theorem filter_corpus_accepts_iff (w : str) :
  ~ In 10%N w ->
  FilterCorpus.is_gibberish w = false
  <-> 2 <= length w <= 25 /\ ~ has_run4 w
      /\ (length w <= 5 \/ ~ vowel_free w)
      /\ Forall (fun p => ~ substring p w) FilterCorpus.keyboard_patterns.
Proof.
  intros Hnl.
  rewrite <- (search_rep4_false w Hnl), <- vowel_rule_false, <- scan_patterns_false.
  unfold FilterCorpus.is_gibberish.
  rewrite (scan_patterns_same FilterCorpus.keyboard_patterns w).
  destruct (Nat.ltb_spec (length w) 2);
    [split; [discriminate | intros [? _]; lia]|].
  destruct (Nat.ltb_spec 25 (length w));
    [split; [discriminate | intros [? _]; lia]|].
  destruct (Py.search_rep4 w);
    [split; [discriminate | intros [_ [? _]]; discriminate]|].
  destruct ((5 <? length w) && negb (Py.search_vowel w));
    [split; [discriminate | intros [_ [_ [? _]]]; discriminate]|].
  split; [intros E; repeat split; auto; lia | tauto].
Qed.

Lemma filter_corpus_accepts_iff_witness :
  ~ In 10%N (lit "word")
  /\ (FilterCorpus.is_gibberish (lit "word") = false
      <-> 2 <= length (lit "word") <= 25 /\ ~ has_run4 (lit "word")
          /\ (length (lit "word") <= 5 \/ ~ vowel_free (lit "word"))
          /\ Forall (fun p => ~ substring p (lit "word"))
               FilterCorpus.keyboard_patterns).
Proof.
  assert (H : ~ In 10%N (lit "word")).
  { apply normalized_no_newline, normalized_forallb. reflexivity. }
  split; [exact H | exact (filter_corpus_accepts_iff (lit "word") H)].
Defined.

(** How the two classifiers differ on any string: filter_corpus.py rejects
    what is longer than 25, and up to 25 it accepts exactly what filter.py
    accepts or rejects for an entry of its own table only. *)
Lemma accepts_pointwise w :
  negb (Filter.is_gibberish w) && (length w <=? 25)
  = negb (FilterCorpus.is_gibberish w)
    && negb (Filter.scan_patterns filter_only_patterns w).
Proof.
  unfold Filter.is_gibberish, Filter.is_gibberish_over, FilterCorpus.is_gibberish.
  rewrite (scan_patterns_same FilterCorpus.keyboard_patterns w).
  change Filter.kbd_patt with (FilterCorpus.keyboard_patterns ++ filter_only_patterns).
  rewrite scan_patterns_app.
  destruct (Nat.ltb_spec (length w) 2); [reflexivity|].
  destruct (Nat.ltb_spec 25 (length w)) as [H25 | H25].
  - simpl. rewrite (proj2 (Nat.leb_gt _ _) H25). apply andb_false_r.
  - rewrite (proj2 (Nat.leb_le _ _) H25), andb_true_r.
    assert (E : (32 <? length w) = false) by (apply Nat.ltb_ge; lia).
    rewrite E.
    destruct (Py.search_rep4 w); [reflexivity|].
    destruct ((5 <? length w) && negb (Py.search_vowel w)); [reflexivity|].
    apply negb_orb.
Qed.

(** X3. What filter_corpus.py accepts has at most 25 code points; up to 25
    filter.py accepts nothing that filter_corpus.py rejects; and it rejects
    what filter_corpus.py accepts only for an entry of its own table. *)
Theorem classifiers_ordered (w : str) :
  (FilterCorpus.is_gibberish w = false -> length w <= 25)
  /\ (length w <= 25 -> Filter.is_gibberish w = false ->
      FilterCorpus.is_gibberish w = false)
  /\ (FilterCorpus.is_gibberish w = false ->
      Forall (fun p => ~ substring p w) filter_only_patterns ->
      Filter.is_gibberish w = false).
Proof.
  pose proof (accepts_pointwise w) as E.
  split; [|split].
  - intros H. rewrite H in E.
    unfold FilterCorpus.is_gibberish in H.
    destruct (length w <? 2); [discriminate|].
    destruct (Nat.ltb_spec 25 (length w)); [discriminate | assumption].
  - intros Hl Hf. rewrite Hf, (proj2 (Nat.leb_le _ _) Hl) in E. simpl in E.
    symmetry in E. apply andb_true_iff in E as [E _].
    now apply negb_true_iff in E.
  - intros Hc Hp. apply scan_patterns_false in Hp. rewrite Hc, Hp in E.
    simpl in E. apply andb_true_iff in E as [E _].
    now apply negb_true_iff in E.
Qed.

Lemma classifiers_ordered_witness :
  (FilterCorpus.is_gibberish (lit "word") = false /\ length (lit "word") <= 25)
  /\ (Filter.is_gibberish (lit "word") = false
      /\ FilterCorpus.is_gibberish (lit "word") = false)
  /\ (Forall (fun p => ~ substring p (lit "word")) filter_only_patterns
      /\ Filter.is_gibberish (lit "word") = false).
Proof.
  assert (Hc : FilterCorpus.is_gibberish (lit "word") = false) by reflexivity.
  assert (Hf : Filter.is_gibberish (lit "word") = false) by reflexivity.
  assert (Hl : length (lit "word") <= 25) by (vm_compute; lia).
  assert (Hp : Forall (fun p => ~ substring p (lit "word")) filter_only_patterns)
    by (apply not_substring_forallb; reflexivity).
  split; [|split].
  - split; [exact Hc | exact (proj1 (classifiers_ordered (lit "word")) Hc)].
  - split; [exact Hf|].
    exact (proj1 (proj2 (classifiers_ordered (lit "word"))) Hl Hf).
  - split; [exact Hp|].
    exact (proj2 (proj2 (classifiers_ordered (lit "word"))) Hc Hp).
Defined.

(** ** Further properties of [clean_text] *)

Lemma plain_no_markup s :
  plain s -> Forall (fun c => (c =? 64)%N = false /\ (c =? 60)%N = false) s.
Proof.
  intros H. eapply Forall_impl; [exact H|]. simpl. intros c [H1 H2].
  split; now apply N.eqb_neq.
Qed.

Lemma split_from_sep cur a c b :
  Py.isspace c = true ->
  Py.split_from cur (a ++ c :: b) = Py.split_from cur a ++ Py.split b.
Proof.
  intros Hc. revert cur. induction a as [|x a IH]; intros cur; simpl.
  - now rewrite Hc.
  - destruct (Py.isspace x); [now rewrite IH, app_assoc | apply IH].
Qed.

Lemma split_sep a c b :
  Py.isspace c = true -> Py.split (a ++ c :: b) = Py.split a ++ Py.split b.
Proof. apply split_from_sep. Qed.

Section SubSteps.

Variable match_at : str -> option nat.
Variable repl : str.

(** The scan copies a prefix at no position of which the pattern matches. *)
Lemma sub_app_no_match (P : char -> Prop) pre s :
  (forall c s', P c -> match_at (c :: s') = None) ->
  Forall P pre ->
  Py.sub match_at repl (pre ++ s) = pre ++ Py.sub match_at repl s.
Proof.
  intros Hm. unfold Py.sub. induction 1 as [|c pre Hc Hpre IH]; simpl.
  - reflexivity.
  - rewrite (Hm c (pre ++ s) Hc). f_equal. exact IH.
Qed.

(** The scan passes over the rest of a match. *)
Lemma sub_from_skip s1 s2 :
  Py.sub_from match_at repl (length s1) (s1 ++ s2)
  = Py.sub_from match_at repl 0 s2.
Proof. induction s1 as [|c s1 IH]; simpl; [reflexivity | exact IH]. Qed.

(** A match at the head is replaced and the scan goes on after it. *)
Lemma sub_match_head c m rest :
  match_at (c :: m ++ rest) = Some (S (length m)) ->
  Py.sub match_at repl (c :: m ++ rest) = repl ++ Py.sub match_at repl rest.
Proof.
  intros H. unfold Py.sub. simpl. rewrite H. now rewrite sub_from_skip.
Qed.

End SubSteps.

Lemma take_while_run p run rest :
  Forall (fun c => p c = true) run ->
  match rest with [] => True | c :: _ => p c = false end ->
  Py.take_while p (run ++ rest) = run /\ Py.drop_while p (run ++ rest) = rest.
Proof.
  intros Hrun Hrest. induction Hrun as [|c run Hc Hr IH]; simpl.
  - destruct rest as [|c rest]; simpl; [tauto | now rewrite Hrest].
  - rewrite Hc. destruct IH as [-> ->]. tauto.
Qed.

(** A tag, whatever follows it, is replaced by one space. *)
Lemma sub_tag_match body post :
  body <> [] -> Forall (fun c => c <> 62%N) body ->
  Py.sub Py.tag_at (lit " ") (60%N :: body ++ 62%N :: post)
  = 32%N :: Py.sub Py.tag_at (lit " ") post.
Proof.
  intros Hne Hb.
  assert (Hrun : Forall (fun c => Py.not_gt c = true) body).
  { eapply Forall_impl; [exact Hb|]. simpl. intros c Hc. unfold Py.not_gt.
    apply negb_true_iff. now apply N.eqb_neq. }
  destruct (take_while_run Py.not_gt body (62%N :: post) Hrun eq_refl) as [Et Ed].
  replace (60%N :: body ++ 62%N :: post)
    with (60%N :: (body ++ [62%N]) ++ post) by now rewrite <- app_assoc.
  rewrite sub_match_head; [reflexivity|].
  rewrite <- app_assoc. simpl. rewrite Et, Ed.
  destruct body; [contradiction|]. simpl.
  rewrite length_app. reflexivity.
Qed.

(** A marker that no digit follows is replaced by one space. *)
Lemma sub_marker_match nd ds post :
  ds <> [] -> Forall (fun c => Py.isdigit nd c = true) ds ->
  no_digit_ahead nd post ->
  Py.sub (Py.marker_at (Py.isdigit nd)) (lit " ") (64%N :: 64%N :: ds ++ post)
  = 32%N :: Py.sub (Py.marker_at (Py.isdigit nd)) (lit " ") post.
Proof.
  intros Hne Hd Hp.
  destruct (take_while_run (Py.isdigit nd) ds post Hd Hp) as [Et _].
  change (64%N :: 64%N :: ds ++ post) with (64%N :: (64%N :: ds) ++ post).
  rewrite sub_match_head; [reflexivity|].
  simpl. rewrite Et. destruct ds; [contradiction | reflexivity].
Qed.

Section MarkupSteps.

Variable unicode_Nd : char -> bool.

Lemma strip_markup_plain_prefix pre s :
  plain pre -> strip_markup unicode_Nd (pre ++ s) = pre ++ strip_markup unicode_Nd s.
Proof.
  intros H. apply plain_no_markup in H. unfold strip_markup.
  rewrite (sub_app_no_match _ _ (fun c => (c =? 64)%N = false));
    [|intros c s'; apply marker_at_head
     |eapply Forall_impl; [exact H|]; simpl; tauto].
  rewrite (sub_app_no_match _ _ (fun c => (c =? 60)%N = false));
    [reflexivity
    |intros c s'; apply tag_at_head
    |eapply Forall_impl; [exact H|]; simpl; tauto].
Qed.

Lemma strip_markup_tag body post :
  body <> [] -> Forall (fun c => c <> 62%N /\ c <> 64%N) body ->
  strip_markup unicode_Nd (60%N :: body ++ 62%N :: post)
  = 32%N :: strip_markup unicode_Nd post.
Proof.
  intros Hne Hb. unfold strip_markup.
  replace (60%N :: body ++ 62%N :: post)
    with ((60%N :: body ++ [62%N]) ++ post)
    by (simpl; now rewrite <- app_assoc).
  rewrite (sub_app_no_match _ _ (fun c => (c =? 64)%N = false));
    [|intros c s'; apply marker_at_head|].
  - simpl. rewrite <- app_assoc. simpl.
    apply sub_tag_match; [exact Hne|].
    eapply Forall_impl; [exact Hb|]. simpl. tauto.
  - constructor; [reflexivity|]. apply Forall_app. split.
    + eapply Forall_impl; [exact Hb|]. simpl. intros c [_ Hc].
      now apply N.eqb_neq.
    + now constructor.
Qed.

Lemma strip_markup_marker ds post :
  ds <> [] -> Forall (fun c => Py.isdigit unicode_Nd c = true) ds ->
  no_digit_ahead unicode_Nd post ->
  strip_markup unicode_Nd (64%N :: 64%N :: ds ++ post)
  = 32%N :: strip_markup unicode_Nd post.
Proof.
  intros Hne Hd Hp. unfold strip_markup.
  rewrite sub_marker_match by assumption.
  change (32%N :: ?t) with ([32%N] ++ t).
  rewrite (sub_app_no_match _ _ (fun c => (c =? 60)%N = false));
    [reflexivity | intros c s'; apply tag_at_head | now constructor].
Qed.

End MarkupSteps.

Example strip_markup_sample :
  strip_markup ascii_only_Nd (lit "a<b>c@@12d<>e@@f") = lit "a c d<>e@@f".
Proof. reflexivity. Qed.

Example split_sample :
  Py.split (lit "  ab  c ") = [lit "ab"; lit "c"].
Proof. reflexivity. Qed.

Section TokenFacts.

Variable unicode_lower : str -> str.
Variable unicode_Nd : char -> bool.

(** The tokens of the result of either script are its kept tokens. *)
Lemma filter_tokens text sw :
  Py.split (Filter.clean_text unicode_lower unicode_Nd text sw)
  = surviving_tokens Filter.is_gibberish unicode_lower unicode_Nd text sw.
Proof.
  rewrite filter_clean_text_tokens. apply split_join.
  eapply kept_az_tokens. apply surviving_tokens_kept.
Qed.

Lemma filter_corpus_tokens text sw :
  Py.split (FilterCorpus.clean_text unicode_lower unicode_Nd text sw)
  = surviving_tokens FilterCorpus.is_gibberish unicode_lower unicode_Nd text sw.
Proof.
  rewrite filter_corpus_clean_text_tokens. apply split_join.
  eapply kept_az_tokens. apply surviving_tokens_kept.
Qed.

Lemma surviving_tokens_app gibberish sw text a b :
  Py.split (strip_markup unicode_Nd text)
  = Py.split (strip_markup unicode_Nd a) ++ Py.split (strip_markup unicode_Nd b) ->
  surviving_tokens gibberish unicode_lower unicode_Nd text sw
  = surviving_tokens gibberish unicode_lower unicode_Nd a sw
    ++ surviving_tokens gibberish unicode_lower unicode_Nd b sw.
Proof.
  intros E. unfold surviving_tokens.
  now rewrite E, List.map_app, List.filter_app.
Qed.

Lemma split_markup_sep pre c s :
  plain pre -> Py.isspace c = true ->
  Py.split (strip_markup unicode_Nd (pre ++ c :: s))
  = Py.split (strip_markup unicode_Nd pre)
    ++ Py.split (strip_markup unicode_Nd s).
Proof.
  intros Hp Hc.
  assert (Hpc : plain (pre ++ [c])).
  { apply Forall_app. split; [exact Hp|]. constructor; [|constructor].
    split; intros ->; discriminate. }
  replace (pre ++ c :: s) with ((pre ++ [c]) ++ s) by now rewrite <- app_assoc.
  rewrite strip_markup_plain_prefix by exact Hpc.
  rewrite <- app_assoc. simpl. rewrite split_sep by exact Hc.
  now rewrite (strip_markup_id unicode_Nd pre) by now apply plain_no_markup.
Qed.

Lemma split_markup_tag pre body post :
  plain pre -> body <> [] -> Forall (fun c => c <> 62%N /\ c <> 64%N) body ->
  Py.split (strip_markup unicode_Nd (pre ++ 60%N :: body ++ 62%N :: post))
  = Py.split (strip_markup unicode_Nd pre)
    ++ Py.split (strip_markup unicode_Nd post).
Proof.
  intros Hp Hne Hb.
  rewrite strip_markup_plain_prefix by exact Hp.
  rewrite strip_markup_tag by assumption.
  rewrite split_sep by reflexivity.
  now rewrite (strip_markup_id unicode_Nd pre) by now apply plain_no_markup.
Qed.

Lemma split_markup_marker pre ds post :
  plain pre -> ds <> [] ->
  Forall (fun c => Py.isdigit unicode_Nd c = true) ds ->
  no_digit_ahead unicode_Nd post ->
  Py.split (strip_markup unicode_Nd (pre ++ 64%N :: 64%N :: ds ++ post))
  = Py.split (strip_markup unicode_Nd pre)
    ++ Py.split (strip_markup unicode_Nd post).
Proof.
  intros Hp Hne Hd Ha.
  rewrite strip_markup_plain_prefix by exact Hp.
  rewrite strip_markup_marker by assumption.
  rewrite split_sep by reflexivity.
  now rewrite (strip_markup_id unicode_Nd pre) by now apply plain_no_markup.
Qed.

(** X5. After a text without [@] and [<], a white space cuts the cleaning in
    two: the tokens of the result are those of the text before it followed
    by those of the text after it, in both scripts. *)
Theorem clean_text_white_space_cuts (pre : str) (c : char) (post : str)
    (stop_words : gset str) :
  plain pre -> Py.isspace c = true ->
  Py.split (Filter.clean_text unicode_lower unicode_Nd (pre ++ c :: post) stop_words)
  = Py.split (Filter.clean_text unicode_lower unicode_Nd pre stop_words)
    ++ Py.split (Filter.clean_text unicode_lower unicode_Nd post stop_words)
  /\ Py.split (FilterCorpus.clean_text unicode_lower unicode_Nd
                 (pre ++ c :: post) stop_words)
     = Py.split (FilterCorpus.clean_text unicode_lower unicode_Nd pre stop_words)
       ++ Py.split (FilterCorpus.clean_text unicode_lower unicode_Nd post stop_words).
Proof.
  intros Hp Hc. rewrite !filter_tokens, !filter_corpus_tokens.
  split; apply surviving_tokens_app, split_markup_sep; assumption.
Qed.

(** X6. A tag after a text without [@] and [<] leaves nothing of itself in the
    result, whatever its body of code points other than [>] and [@]: the
    tokens are those of the text before the tag followed by those of the
    text after it. *)
Theorem clean_text_tag_dropped (pre body post : str) (stop_words : gset str) :
  plain pre -> body <> [] -> Forall (fun c => c <> 62%N /\ c <> 64%N) body ->
  Py.split (Filter.clean_text unicode_lower unicode_Nd
              (pre ++ 60%N :: body ++ 62%N :: post) stop_words)
  = Py.split (Filter.clean_text unicode_lower unicode_Nd pre stop_words)
    ++ Py.split (Filter.clean_text unicode_lower unicode_Nd post stop_words)
  /\ Py.split (FilterCorpus.clean_text unicode_lower unicode_Nd
                 (pre ++ 60%N :: body ++ 62%N :: post) stop_words)
     = Py.split (FilterCorpus.clean_text unicode_lower unicode_Nd pre stop_words)
       ++ Py.split (FilterCorpus.clean_text unicode_lower unicode_Nd post stop_words).
Proof.
  intros Hp Hne Hb. rewrite !filter_tokens, !filter_corpus_tokens.
  split; apply surviving_tokens_app, split_markup_tag; assumption.
Qed.

(** X7. A marker [@@] with its digits, after a text without [@] and [<] and
    before a text that does not start with a digit, leaves nothing of
    itself in the result. *)
Theorem clean_text_marker_dropped (pre ds post : str) (stop_words : gset str) :
  plain pre -> ds <> [] ->
  Forall (fun c => Py.isdigit unicode_Nd c = true) ds ->
  no_digit_ahead unicode_Nd post ->
  Py.split (Filter.clean_text unicode_lower unicode_Nd
              (pre ++ 64%N :: 64%N :: ds ++ post) stop_words)
  = Py.split (Filter.clean_text unicode_lower unicode_Nd pre stop_words)
    ++ Py.split (Filter.clean_text unicode_lower unicode_Nd post stop_words)
  /\ Py.split (FilterCorpus.clean_text unicode_lower unicode_Nd
                 (pre ++ 64%N :: 64%N :: ds ++ post) stop_words)
     = Py.split (FilterCorpus.clean_text unicode_lower unicode_Nd pre stop_words)
       ++ Py.split (FilterCorpus.clean_text unicode_lower unicode_Nd post stop_words).
Proof.
  intros Hp Hne Hd Ha. rewrite !filter_tokens, !filter_corpus_tokens.
  split; apply surviving_tokens_app, split_markup_marker; assumption.
Qed.

End TokenFacts.

Lemma plain_forallb s :
  forallb (fun c => negb (c =? 64)%N && negb (c =? 60)%N) s = true -> plain s.
Proof.
  intros H. apply List.Forall_forall. intros c Hc.
  rewrite forallb_forall in H. specialize (H c Hc).
  apply andb_true_iff in H as [H1 H2].
  rewrite negb_true_iff in H1, H2. split; now apply N.eqb_neq.
Qed.

Lemma clean_text_white_space_cuts_witness :
  let pre := lit "the cat" in
  let post := lit "<b>sat</b> and ran" in
  plain pre /\ Py.isspace 10 = true
  /\ Py.split (Filter.clean_text ascii_only_lower ascii_only_Nd
                 (pre ++ 10%N :: post) the_and)
     = Py.split (Filter.clean_text ascii_only_lower ascii_only_Nd pre the_and)
       ++ Py.split (Filter.clean_text ascii_only_lower ascii_only_Nd post the_and).
Proof.
  intros pre post.
  assert (Hp : plain pre) by (apply plain_forallb; reflexivity).
  split; [exact Hp|]. split; [reflexivity|].
  exact (proj1 (clean_text_white_space_cuts ascii_only_lower ascii_only_Nd
                  pre 10%N post the_and Hp eq_refl)).
Defined.

Lemma clean_text_tag_dropped_witness :
  let pre := lit "see " in
  let body := lit "a href='the'" in
  let post := lit "here</a> now" in
  plain pre /\ body <> [] /\ Forall (fun c => c <> 62%N /\ c <> 64%N) body
  /\ Py.split (FilterCorpus.clean_text ascii_only_lower ascii_only_Nd
                 (pre ++ 60%N :: body ++ 62%N :: post) the_and)
     = Py.split (FilterCorpus.clean_text ascii_only_lower ascii_only_Nd pre the_and)
       ++ Py.split (FilterCorpus.clean_text ascii_only_lower ascii_only_Nd post the_and).
Proof.
  intros pre body post.
  assert (Hp : plain pre) by (apply plain_forallb; reflexivity).
  assert (Hne : body <> []) by discriminate.
  assert (Hb : Forall (fun c => c <> 62%N /\ c <> 64%N) body)
    by (repeat constructor; discriminate).
  split; [exact Hp|]. split; [exact Hne|]. split; [exact Hb|].
  exact (proj2 (clean_text_tag_dropped ascii_only_lower ascii_only_Nd
                  pre body post the_and Hp Hne Hb)).
Defined.

Lemma clean_text_marker_dropped_witness :
  let pre := lit "see" in
  let ds := lit "12" in
  let post := lit " more" in
  plain pre /\ ds <> []
  /\ Forall (fun c => Py.isdigit ascii_only_Nd c = true) ds
  /\ no_digit_ahead ascii_only_Nd post
  /\ Py.split (Filter.clean_text ascii_only_lower ascii_only_Nd
                 (pre ++ 64%N :: 64%N :: ds ++ post) the_and)
     = Py.split (Filter.clean_text ascii_only_lower ascii_only_Nd pre the_and)
       ++ Py.split (Filter.clean_text ascii_only_lower ascii_only_Nd post the_and).
Proof.
  intros pre ds post.
  assert (Hp : plain pre) by (apply plain_forallb; reflexivity).
  assert (Hne : ds <> []) by discriminate.
  assert (Hd : Forall (fun c => Py.isdigit ascii_only_Nd c = true) ds)
    by (repeat constructor).
  assert (Ha : no_digit_ahead ascii_only_Nd post) by reflexivity.
  split; [exact Hp|]. split; [exact Hne|]. split; [exact Hd|]. split; [exact Ha|].
  exact (proj1 (clean_text_marker_dropped ascii_only_lower ascii_only_Nd
                  pre ds post the_and Hp Hne Hd Ha)).
Defined.

(** *** What the kept tokens are *)

Lemma accepted_length_filter w : Filter.is_gibberish w = false -> 2 <= length w <= 32.
Proof.
  unfold Filter.is_gibberish, Filter.is_gibberish_over.
  destruct (Nat.ltb_spec (length w) 2); [discriminate|].
  destruct (Nat.ltb_spec 32 (length w)); [discriminate|]. lia.
Qed.

Lemma accepted_length_filter_corpus w :
  FilterCorpus.is_gibberish w = false -> 2 <= length w <= 25.
Proof.
  unfold FilterCorpus.is_gibberish.
  destruct (Nat.ltb_spec (length w) 2); [discriminate|].
  destruct (Nat.ltb_spec 25 (length w)); [discriminate|]. lia.
Qed.

(** X4. Every token of a result of [clean_text] is one the classifier of the
    script accepts: it has 2 to 32 letters (2 to 25 in filter_corpus.py). *)
Theorem clean_text_tokens_accepted
    (unicode_lower : str -> str) (unicode_Nd : char -> bool)
    (text : str) (stop_words : gset str) :
  Forall (fun w => Filter.is_gibberish w = false /\ 2 <= length w <= 32)
    (Py.split (Filter.clean_text unicode_lower unicode_Nd text stop_words))
  /\ Forall (fun w => FilterCorpus.is_gibberish w = false /\ 2 <= length w <= 25)
       (Py.split (FilterCorpus.clean_text unicode_lower unicode_Nd text stop_words)).
Proof.
  rewrite filter_tokens, filter_corpus_tokens. split.
  - eapply Forall_impl; [apply surviving_tokens_kept|]. simpl.
    intros w [_ [_ Hg]]. split; [exact Hg | now apply accepted_length_filter].
  - eapply Forall_impl; [apply surviving_tokens_kept|]. simpl.
    intros w [_ [_ Hg]]. split; [exact Hg | now apply accepted_length_filter_corpus].
Qed.

(** *** Stop words *)

Lemma filter_filter_and {A} (f g : A -> bool) (l : list A) :
  List.filter g (List.filter f l) = List.filter (fun x => f x && g x) l.
Proof.
  induction l as [|x l IH]; simpl; [reflexivity|].
  destruct (f x); simpl; [|exact IH]. destruct (g x); now rewrite IH.
Qed.

Lemma survives_union (gibberish : str -> bool) (sw1 sw2 : gset str) (w : str) :
  survives gibberish (sw1 ∪ sw2) w
  = survives gibberish sw1 w && negb (bool_decide (w ∈ sw2)).
Proof.
  unfold survives.
  replace (bool_decide (w ∈ sw1 ∪ sw2))
    with (bool_decide (w ∈ sw1) || bool_decide (w ∈ sw2)).
  - destruct (Py.is_empty w), (bool_decide (w ∈ sw1)), (bool_decide (w ∈ sw2)),
      (gibberish w); reflexivity.
  - rewrite <- bool_decide_or. apply bool_decide_ext. now rewrite elem_of_union.
Qed.

Lemma surviving_tokens_union (gibberish : str -> bool) (ul : str -> str)
    (nd : char -> bool) (text : str) (sw1 sw2 : gset str) :
  surviving_tokens gibberish ul nd text (sw1 ∪ sw2)
  = List.filter (fun w => negb (bool_decide (w ∈ sw2)))
      (surviving_tokens gibberish ul nd text sw1).
Proof.
  unfold surviving_tokens. rewrite filter_filter_and.
  apply List.filter_ext. intros w. apply survives_union.
Qed.

(** X8. Cleaning with more stop words is cleaning with fewer and then dropping
    the tokens that are among the added ones, in both scripts. *)
Theorem clean_text_more_stop_words
    (unicode_lower : str -> str) (unicode_Nd : char -> bool)
    (text : str) (sw1 sw2 : gset str) :
  Py.split (Filter.clean_text unicode_lower unicode_Nd text (sw1 ∪ sw2))
  = List.filter (fun w => negb (bool_decide (w ∈ sw2)))
      (Py.split (Filter.clean_text unicode_lower unicode_Nd text sw1))
  /\ Py.split (FilterCorpus.clean_text unicode_lower unicode_Nd text (sw1 ∪ sw2))
     = List.filter (fun w => negb (bool_decide (w ∈ sw2)))
         (Py.split (FilterCorpus.clean_text unicode_lower unicode_Nd text sw1)).
Proof.
  rewrite !filter_tokens, !filter_corpus_tokens.
  split; apply surviving_tokens_union.
Qed.

(** X9. filter.py runs with the stop words of its [get_stop_words], the empty
    set: no token is dropped for being a stop word, and the result with
    any stop words is that result with the stop words taken out. *)
Theorem filter_get_stop_words_neutral
    (unicode_lower : str -> str) (unicode_Nd : char -> bool)
    (text : str) (stop_words : gset str) :
  Filter.clean_text unicode_lower unicode_Nd text stop_words
  = Py.join (lit " ")
      (List.filter (fun w => negb (bool_decide (w ∈ stop_words)))
         (Py.split (Filter.clean_text unicode_lower unicode_Nd text
                      Filter.get_stop_words))).
Proof.
  rewrite filter_tokens, <- surviving_tokens_union.
  unfold Filter.get_stop_words. rewrite (left_id_L ∅ (∪)).
  apply filter_clean_text_tokens.
Qed.

(** *** The two scripts on one text *)

(** X10. With the same stop words, the tokens of at most 25 letters that
    filter.py keeps are the tokens that filter_corpus.py keeps and that
    have no entry of the longer table as a part, in the same order. *)
Theorem scripts_compared
    (unicode_lower : str -> str) (unicode_Nd : char -> bool)
    (text : str) (stop_words : gset str) :
  List.filter (fun w => length w <=? 25)
    (Py.split (Filter.clean_text unicode_lower unicode_Nd text stop_words))
  = List.filter (fun w => negb (Filter.scan_patterns filter_only_patterns w))
      (Py.split (FilterCorpus.clean_text unicode_lower unicode_Nd text stop_words)).
Proof.
  rewrite filter_tokens, filter_corpus_tokens. unfold surviving_tokens.
  rewrite !filter_filter_and. apply List.filter_ext. intros w.
  unfold survives. rewrite <- !andb_assoc. f_equal. f_equal.
  apply accepts_pointwise.
Qed.

(** *** Letter case *)

Lemma ascii_lower_cases c :
  Py.ascii_lower c = c \/ ((65 <= c <= 90)%N /\ Py.ascii_lower c = (c + 32)%N).
Proof.
  unfold Py.ascii_lower.
  destruct (N.leb_spec 65 c); simpl; [|now left].
  destruct (N.leb_spec c 90); simpl; [right; lia | now left].
Qed.

Lemma ascii_lower_space c : Py.isspace (Py.ascii_lower c) = Py.isspace c.
Proof.
  destruct (ascii_lower_cases c) as [-> | [H ->]]; [reflexivity|].
  transitivity false; [|symmetry]; unfold Py.isspace; N_cases.
Qed.

Lemma ascii_lower_digit nd c :
  Py.isdigit nd (Py.ascii_lower c) = Py.isdigit nd c.
Proof.
  destruct (ascii_lower_cases c) as [-> | [H ->]]; [reflexivity|].
  unfold Py.isdigit, Py.is_ascii.
  transitivity false; [|symmetry]; N_cases.
Qed.

Lemma ascii_lower_eqb c k :
  (k < 65 \/ 122 < k)%N -> (Py.ascii_lower c =? k)%N = (c =? k)%N.
Proof.
  intros Hk. destruct (ascii_lower_cases c) as [-> | [H ->]]; [reflexivity|].
  transitivity false; [|symmetry]; apply N.eqb_neq; lia.
Qed.

Lemma ascii_lower_not_gt c : Py.not_gt (Py.ascii_lower c) = Py.not_gt c.
Proof. unfold Py.not_gt. rewrite ascii_lower_eqb by lia. reflexivity. Qed.

Lemma ascii_lower_ascii c : Py.is_ascii (Py.ascii_lower c) = Py.is_ascii c.
Proof.
  destruct (ascii_lower_cases c) as [-> | [H ->]]; [reflexivity|].
  unfold Py.is_ascii. transitivity true; [|symmetry]; apply N.ltb_lt; lia.
Qed.

Lemma ascii_lower_idem c : Py.ascii_lower (Py.ascii_lower c) = Py.ascii_lower c.
Proof.
  destruct (ascii_lower_cases c) as [E | [H E]]; [now rewrite !E|].
  rewrite E. unfold Py.ascii_lower. N_cases.
Qed.

Section MapFacts.

Variable f : char -> char.

Lemma take_while_map p s :
  (forall c, p (f c) = p c) ->
  Py.take_while p (List.map f s) = List.map f (Py.take_while p s).
Proof.
  intros Hp. induction s as [|c s IH]; simpl; [reflexivity|].
  rewrite Hp. destruct (p c); simpl; [now rewrite IH | reflexivity].
Qed.

Lemma drop_while_map p s :
  (forall c, p (f c) = p c) ->
  Py.drop_while p (List.map f s) = List.map f (Py.drop_while p s).
Proof.
  intros Hp. induction s as [|c s IH]; simpl; [reflexivity|].
  rewrite Hp. destruct (p c); simpl; [exact IH | reflexivity].
Qed.

(** A replacement commutes with a map of the code points that changes
    neither where the pattern matches nor the replacement text. *)
Lemma sub_from_map match_at repl k s :
  (forall t, match_at (List.map f t) = match_at t) ->
  List.map f repl = repl ->
  Py.sub_from match_at repl k (List.map f s)
  = List.map f (Py.sub_from match_at repl k s).
Proof.
  intros Hm Hr. revert k. induction s as [|c s IH]; intros k; [reflexivity|].
  simpl. destruct k as [|k]; [|apply IH].
  change (f c :: List.map f s) with (List.map f (c :: s)). rewrite Hm.
  destruct (match_at (c :: s)) as [[|j]|]; simpl.
  - now rewrite IH.
  - now rewrite List.map_app, Hr, IH.
  - now rewrite IH.
Qed.

Lemma split_from_map cur s :
  (forall c, Py.isspace (f c) = Py.isspace c) ->
  Py.split_from (List.map f cur) (List.map f s)
  = List.map (List.map f) (Py.split_from cur s).
Proof.
  intros Hs. revert cur. induction s as [|c s IH]; intros cur; simpl.
  - destruct cur; reflexivity.
  - rewrite Hs. destruct (Py.isspace c).
    + pose proof (IH []) as E. simpl in E.
      rewrite List.map_app, E. destruct cur; reflexivity.
    + rewrite <- IH, List.map_app. reflexivity.
Qed.

End MapFacts.

Lemma marker_at_lower nd t :
  Py.marker_at (Py.isdigit nd) (List.map Py.ascii_lower t)
  = Py.marker_at (Py.isdigit nd) t.
Proof.
  destruct t as [|a [|b t]]; try reflexivity. simpl.
  rewrite !ascii_lower_eqb by lia.
  rewrite take_while_map by apply ascii_lower_digit.
  rewrite length_map.
  destruct (Py.take_while (Py.isdigit nd) t); reflexivity.
Qed.

Lemma tag_at_lower t :
  Py.tag_at (List.map Py.ascii_lower t) = Py.tag_at t.
Proof.
  destruct t as [|a t]; [reflexivity|]. simpl.
  rewrite ascii_lower_eqb by lia.
  rewrite take_while_map, drop_while_map by apply ascii_lower_not_gt.
  rewrite length_map.
  destruct (Py.take_while Py.not_gt t), (Py.drop_while Py.not_gt t); reflexivity.
Qed.

Lemma strip_markup_lower nd s :
  strip_markup nd (List.map Py.ascii_lower s)
  = List.map Py.ascii_lower (strip_markup nd s).
Proof.
  unfold strip_markup, Py.sub.
  rewrite sub_from_map; [|apply marker_at_lower | reflexivity].
  rewrite sub_from_map; [reflexivity | apply tag_at_lower | reflexivity].
Qed.

Lemma sub_from_Forall (P : char -> Prop) match_at repl k s :
  Forall P repl -> Forall P s -> Forall P (Py.sub_from match_at repl k s).
Proof.
  intros Hr Hs. revert k. induction Hs as [|c s Hc Hs IH]; intros k; simpl.
  - constructor.
  - destruct k as [|k]; [|apply IH].
    destruct (match_at (c :: s)) as [[|j]|].
    + constructor; [exact Hc | apply IH].
    + apply Forall_app. split; [exact Hr | apply IH].
    + constructor; [exact Hc | apply IH].
Qed.

Lemma split_from_Forall (P : char -> Prop) cur s :
  Forall P cur -> Forall P s -> Forall (Forall P) (Py.split_from cur s).
Proof.
  intros Hcur Hs. revert cur Hcur.
  induction Hs as [|c s Hc Hs IH]; intros cur Hcur; simpl.
  - destruct cur; [constructor | now constructor].
  - destruct (Py.isspace c).
    + apply Forall_app. split; [|apply IH; constructor].
      destruct cur; [constructor | now constructor].
    + apply IH. apply Forall_app. split; [exact Hcur | now constructor].
Qed.

Lemma lower_ascii ul w :
  Forall (fun c => Py.is_ascii c = true) w ->
  Py.lower ul w = List.map Py.ascii_lower w.
Proof.
  intros H. unfold Py.lower.
  replace (forallb Py.is_ascii w) with true; [reflexivity|].
  symmetry. apply forallb_forall. intros c Hc.
  rewrite List.Forall_forall in H. now apply H.
Qed.

Lemma normalize_lower ul w :
  Forall (fun c => Py.is_ascii c = true) w ->
  normalize ul (List.map Py.ascii_lower w) = normalize ul w.
Proof.
  intros H. unfold normalize. rewrite (lower_ascii ul w H).
  rewrite lower_ascii.
  - rewrite List.map_map. f_equal. apply List.map_ext. apply ascii_lower_idem.
  - apply List.Forall_forall. intros c Hc. apply List.in_map_iff in Hc as [x [<- Hx]].
    rewrite ascii_lower_ascii. rewrite List.Forall_forall in H. now apply H.
Qed.

Lemma surviving_tokens_lower (gibberish : str -> bool) (ul : str -> str)
    (nd : char -> bool) (text : str) (sw : gset str) :
  Forall (fun c => Py.is_ascii c = true) text ->
  surviving_tokens gibberish ul nd (List.map Py.ascii_lower text) sw
  = surviving_tokens gibberish ul nd text sw.
Proof.
  intros H. unfold surviving_tokens. rewrite strip_markup_lower.
  unfold Py.split.
  rewrite (split_from_map Py.ascii_lower [] _ ascii_lower_space).
  rewrite List.map_map. f_equal.
  apply List.map_ext_in. intros w Hw. apply normalize_lower.
  assert (Ht : Forall (Forall (fun c => Py.is_ascii c = true))
                 (Py.split_from [] (strip_markup nd text))).
  { apply split_from_Forall; [constructor|].
    unfold strip_markup, Py.sub.
    repeat apply sub_from_Forall; try exact H; now repeat constructor. }
  rewrite List.Forall_forall in Ht. now apply Ht.
Qed.

(** X11. On an ASCII text [clean_text] does not tell upper case from lower
    case: the text lowered as a whole gives the same result, in both
    scripts. *)
Theorem clean_text_ignores_case
    (unicode_lower : str -> str) (unicode_Nd : char -> bool)
    (text : str) (stop_words : gset str) :
  Forall (fun c => Py.is_ascii c = true) text ->
  Filter.clean_text unicode_lower unicode_Nd (Py.lower unicode_lower text) stop_words
  = Filter.clean_text unicode_lower unicode_Nd text stop_words
  /\ FilterCorpus.clean_text unicode_lower unicode_Nd
       (Py.lower unicode_lower text) stop_words
     = FilterCorpus.clean_text unicode_lower unicode_Nd text stop_words.
Proof.
  intros H. rewrite (lower_ascii unicode_lower text H).
  rewrite !filter_clean_text_tokens, !filter_corpus_clean_text_tokens.
  now rewrite !surviving_tokens_lower by exact H.
Qed.

Lemma clean_text_ignores_case_witness :
  let text := lit "The <B>Cat</B> AND the HAT" in
  Forall (fun c => Py.is_ascii c = true) text
  /\ Filter.clean_text ascii_only_lower ascii_only_Nd
       (Py.lower ascii_only_lower text) the_and
     = Filter.clean_text ascii_only_lower ascii_only_Nd text the_and.
Proof.
  intros text.
  assert (H : Forall (fun c => Py.is_ascii c = true) text)
    by (repeat constructor).
  split; [exact H|].
  exact (proj1 (clean_text_ignores_case ascii_only_lower ascii_only_Nd
                  text the_and H)).
Defined.

(** ** Properties of [process_file] and of the end of [main] *)

Lemma blank_guard text :
  Py.is_empty text || Py.is_empty (Py.strip text) = true <-> blank text.
Proof.
  unfold blank. split.
  - intros G. apply orb_true_iff in G as [G | G].
    + destruct text; [constructor | discriminate].
    + apply strip_nil_spaces. destruct (Py.strip text); [reflexivity | discriminate].
  - intros H. rewrite (strip_spaces text H). apply orb_true_r.
Qed.


Section ProcessFileFacts.

Import Os.

Variable unicode_lower : str -> str.
Variable unicode_Nd : char -> bool.



Lemma write_filtered_effects os t done e :
  In e (snd (FilterScript.write_filtered os t done)) ->
  In e done \/ is_print e = true
  \/ e = Write t (fst (FilterScript.write_filtered os t done)).
Proof.
  unfold FilterScript.write_filtered.
  destruct (access_output_dir os); simpl.
  - destruct (write_output os t) as [[]|x]; simpl; intros H;
      apply in_app_or in H as [H | H]; auto; simpl in H.
    + destruct H as [<- | []]. auto.
    + destruct H as [<- | [<- | []]]; auto.
  - intros H. apply in_app_or in H as [H | H]; auto.
    destruct H as [<- | []]. auto.
Qed.

(** X15. Whatever the run of [process_file] of filter.py, it makes a directory
    or writes only once the input file has passed the tests, and what it
    writes is the clean text of the text read, the writing going through
    exactly when the function returns [True]. *)
Theorem process_file_effects (os : answers) (stop_words : gset str) (e : effect) :
  In e (snd (FilterScript.process_file unicode_lower unicode_Nd os stop_words)) ->
  is_print e = false ->
  exists text,
    input_accepted os text
    /\ (e = Makedirs
        \/ e = Write (Filter.clean_text unicode_lower unicode_Nd text stop_words)
                 (fst (FilterScript.process_file unicode_lower unicode_Nd
                         os stop_words))).
Proof.
  unfold FilterScript.process_file, input_accepted.
  destruct (exists_input os); simpl;
    [|intros [<- | []]; discriminate].
  destruct (access_input os); simpl;
    [|intros [<- | []]; discriminate].
  destruct (getsize_input os) as [size|x]; simpl;
    [|intros [<- | []]; discriminate].
  destruct (N.eqb_spec size 0); simpl;
    [intros [<- | []]; discriminate|].
  destruct (N.ltb_spec (100 * 1024 * 1024) size); simpl;
    [intros [<- | []]; discriminate|].
  destruct (read_input os) as [text|x]; simpl;
    [|intros [<- | []]; discriminate].
  destruct (Py.is_empty text || Py.is_empty (Py.strip text)) eqn:G; simpl;
    [intros [<- | []]; discriminate|].
  assert (Hnb : ~ blank text).
  { intros Hb. apply blank_guard in Hb. congruence. }
  intros Hin Hp. exists text. split.
  { repeat split; auto. exists size. split; [reflexivity | lia]. }
  set (t := Filter.clean_text unicode_lower unicode_Nd text stop_words) in *.
  set (done := if Py.is_empty t then [Print No_content_remaining] else []) in *.
  assert (Hdone : forall x, In x done -> is_print x = true).
  { intros x. unfold done. destruct (Py.is_empty t); simpl; [|tauto].
    intros [<- | []]. reflexivity. }
  destruct (negb (Py.is_empty (dirname_output os))
            && negb (exists_output_dir os)).
  - destruct (makedirs_output_dir os) as [[]|x]; simpl in *.
    + apply write_filtered_effects in Hin as [Hin | [Hin | Hin]].
      * apply in_app_or in Hin as [Hin | [<- | []]]; [|now left].
        apply Hdone in Hin. congruence.
      * congruence.
      * now right.
    + apply in_app_or in Hin as [Hin | [<- | []]]; [|discriminate].
      apply Hdone in Hin. congruence.
  - apply write_filtered_effects in Hin as [Hin | [Hin | Hin]].
    + apply Hdone in Hin. congruence.
    + congruence.
    + now right.
Qed.


End ProcessFileFacts.


Lemma process_file_effects_witness :
  let os := willing_system 11 (lit "a fine text") in
  In (Os.Write (lit "fine text") true)
    (snd (FilterScript.process_file ascii_only_lower ascii_only_Nd os the_and))
  /\ Os.is_print (Os.Write (lit "fine text") true) = false
  /\ exists text,
       input_accepted os text
       /\ (Os.Write (lit "fine text") true = Os.Makedirs
           \/ Os.Write (lit "fine text") true
              = Os.Write
                  (Filter.clean_text ascii_only_lower ascii_only_Nd text the_and)
                  (fst (FilterScript.process_file ascii_only_lower ascii_only_Nd
                          os the_and))).
Proof.
  intros os.
  assert (Hin : In (Os.Write (lit "fine text") true)
                  (snd (FilterScript.process_file ascii_only_lower ascii_only_Nd
                          os the_and)))
    by (vm_compute; tauto).
  split; [exact Hin|]. split; [reflexivity|].
  exact (process_file_effects ascii_only_lower ascii_only_Nd os the_and
           (Os.Write (lit "fine text") true) Hin eq_refl).
Defined.


(** *** The exit status *)







(** *** One word, and the stop words of filter_corpus.py *)

Lemma single_word_tokens (gibberish : str -> bool) (ul : str -> str)
    (nd : char -> bool) (w : str) (sw : gset str) :
  az_token w ->
  surviving_tokens gibberish ul nd w sw
  = if bool_decide (w ∈ sw) || gibberish w then [] else [w].
Proof.
  intros Hw.
  assert (Hws : Forall az_token [w]) by now constructor.
  pose proof (join_no_markup [w] Hws) as Hm. simpl in Hm.
  pose proof (split_join [w] Hws) as Hs. simpl in Hs.
  rewrite surviving_tokens_plain; [|exact Hm|].
  - rewrite Hs. simpl. unfold survives.
    destruct Hw as [Hne _]. destruct w; [contradiction|]. simpl.
    destruct (bool_decide (n :: w ∈ sw)), (gibberish (n :: w)); reflexivity.
  - rewrite Hs. constructor; [apply Hw | constructor].
Qed.

(** A text that is one word of [[a-z]+] comes back as it is, unless the
    word is a stop word or gibberish: then the result is empty. *)
Theorem clean_text_single_word
    (unicode_lower : str -> str) (unicode_Nd : char -> bool)
    (w : str) (stop_words : gset str) :
  az_token w ->
  Filter.clean_text unicode_lower unicode_Nd w stop_words
  = (if bool_decide (w ∈ stop_words) || Filter.is_gibberish w then [] else w)
  /\ FilterCorpus.clean_text unicode_lower unicode_Nd w stop_words
     = (if bool_decide (w ∈ stop_words) || FilterCorpus.is_gibberish w
        then [] else w).
Proof.
  intros Hw.
  rewrite filter_clean_text_tokens, filter_corpus_clean_text_tokens.
  rewrite !single_word_tokens by exact Hw.
  split.
  - destruct (bool_decide (w ∈ stop_words) || Filter.is_gibberish w); reflexivity.
  - destruct (bool_decide (w ∈ stop_words) || FilterCorpus.is_gibberish w);
      reflexivity.
Qed.

Lemma clean_text_single_word_witness :
  az_token (lit "hat")
  /\ Filter.clean_text ascii_only_lower ascii_only_Nd (lit "hat") the_and
     = (if bool_decide (lit "hat" ∈ the_and) || Filter.is_gibberish (lit "hat")
        then [] else lit "hat").
Proof.
  assert (H : az_token (lit "hat")).
  { split; [discriminate | apply normalized_forallb; reflexivity]. }
  split; [exact H|].
  exact (proj1 (clean_text_single_word ascii_only_lower ascii_only_Nd
                  (lit "hat") the_and H)).
Defined.

Lemma contractions_acceptable :
  Forall (fun w => az_token w /\ FilterCorpus.is_gibberish w = false)
    FilterCorpusScript.contractions.
Proof.
  apply List.Forall_forall. intros w Hw.
  assert (H : forallb (fun w => negb (Py.is_empty w) && forallb Py.is_az w
                                && negb (FilterCorpus.is_gibberish w))
                FilterCorpusScript.contractions = true) by reflexivity.
  rewrite forallb_forall in H. specialize (H w Hw).
  apply andb_true_iff in H as [H Hg]. apply andb_true_iff in H as [He Hz].
  split; [split|].
  - intros ->. discriminate.
  - now apply normalized_forallb.
  - now apply negb_true_iff in Hg.
Qed.

(** X13. The stop words of filter_corpus.py are the words of the NLTK list and
    the 24 contractions; none of them is a token of a result obtained with
    them; and each contraction, which alone would come back as it is, is
    taken out. *)
Theorem filter_corpus_stop_words
    (unicode_lower : str -> str) (unicode_Nd : char -> bool)
    (nltk_english : list str) :
  let stop_words := FilterCorpusScript.get_stop_words nltk_english in
  (forall w : str,
     w ∈ stop_words <-> In w nltk_english \/ In w FilterCorpusScript.contractions)
  /\ (forall text : str,
        Forall (fun w => ~ In w nltk_english
                         /\ ~ In w FilterCorpusScript.contractions)
          (Py.split (FilterCorpus.clean_text unicode_lower unicode_Nd
                       text stop_words)))
  /\ (forall w : str,
        In w FilterCorpusScript.contractions ->
        FilterCorpus.clean_text unicode_lower unicode_Nd w ∅ = w
        /\ FilterCorpus.clean_text unicode_lower unicode_Nd w stop_words = []).
Proof.
  intros stop_words.
  assert (Hin : forall w : str,
            w ∈ stop_words
            <-> In w nltk_english \/ In w FilterCorpusScript.contractions).
  { intros w. unfold stop_words, FilterCorpusScript.get_stop_words. cbv zeta.
    rewrite elem_of_union, !elem_of_list_to_set, !list_elem_of_In. reflexivity. }
  split; [exact Hin|]. split.
  - intros text. rewrite filter_corpus_tokens.
    eapply Forall_impl; [apply surviving_tokens_kept|]. simpl.
    intros w [_ [Hw _]].
    split; intros H; apply Hw, Hin; [now left | now right].
  - intros w Hw.
    pose proof contractions_acceptable as Hc.
    rewrite List.Forall_forall in Hc. destruct (Hc w Hw) as [Haz Hg].
    rewrite !filter_corpus_clean_text_tokens.
    rewrite !single_word_tokens by exact Haz. rewrite Hg.
    rewrite bool_decide_eq_false_2 by set_solver.
    rewrite bool_decide_eq_true_2 by (apply Hin; now right).
    split; reflexivity.
Qed.

Lemma split_one_token w :
  Forall (fun c => Py.isspace c = false) w -> Py.split w = Py.flush w.
Proof.
  intros H. unfold Py.split. rewrite <- (app_nil_r w) at 1.
  now rewrite split_from_word by exact H.
Qed.

(** X12. A text without white space, [@] and [<], in ASCII, is one token: what
    comes back is its letters, lowered, with the other code points taken
    out and nothing put in their place, unless no letter is left or that
    word is a stop word or gibberish. *)
Theorem clean_text_one_token
    (unicode_lower : str -> str) (unicode_Nd : char -> bool)
    (text : str) (stop_words : gset str) :
  plain text ->
  Forall (fun c => Py.isspace c = false) text ->
  Forall (fun c => Py.is_ascii c = true) text ->
  let word := List.filter Py.is_az (List.map Py.ascii_lower text) in
  Filter.clean_text unicode_lower unicode_Nd text stop_words
  = (if survives Filter.is_gibberish stop_words word then word else [])
  /\ FilterCorpus.clean_text unicode_lower unicode_Nd text stop_words
     = (if survives FilterCorpus.is_gibberish stop_words word then word else []).
Proof.
  intros Hp Hs Ha word.
  rewrite filter_clean_text_tokens, filter_corpus_clean_text_tokens.
  unfold surviving_tokens.
  rewrite strip_markup_id by now apply plain_no_markup.
  rewrite split_one_token by exact Hs.
  destruct text as [|c text]; [split; reflexivity|].
  assert (E : normalize unicode_lower (c :: text) = word).
  { unfold normalize. now rewrite lower_ascii, sub_nonalpha_filter by exact Ha. }
  simpl Py.flush. simpl List.map. rewrite E. simpl List.filter.
  split.
  - destruct (survives Filter.is_gibberish stop_words word); reflexivity.
  - destruct (survives FilterCorpus.is_gibberish stop_words word); reflexivity.
Qed.

Lemma clean_text_one_token_witness :
  let text := lit "Don't!" in
  plain text /\ Forall (fun c => Py.isspace c = false) text
  /\ Forall (fun c => Py.is_ascii c = true) text
  /\ Filter.clean_text ascii_only_lower ascii_only_Nd text the_and = lit "dont".
Proof.
  intros text.
  assert (Hp : plain text) by (apply plain_forallb; reflexivity).
  assert (Hs : Forall (fun c => Py.isspace c = false) text) by (repeat constructor).
  assert (Ha : Forall (fun c => Py.is_ascii c = true) text) by (repeat constructor).
  split; [exact Hp|]. split; [exact Hs|]. split; [exact Ha|].
  exact (proj1 (clean_text_one_token ascii_only_lower ascii_only_Nd
                  text the_and Hp Hs Ha)).
Defined.

(** X17. Running [process_file] of filter.py on a text that a run has written,
    with the same stop words, writes nothing but that text again. *)
Theorem process_file_rerun
    (unicode_lower : str -> str) (unicode_Nd : char -> bool)
    (os os' : Os.answers) (stop_words : gset str) (t t' : str) (d d' : bool) :
  In (Os.Write t d)
    (snd (FilterScript.process_file unicode_lower unicode_Nd os stop_words)) ->
  Os.read_input os' = Os.Ok t ->
  In (Os.Write t' d')
    (snd (FilterScript.process_file unicode_lower unicode_Nd os' stop_words)) ->
  t' = t.
Proof.
  intros H1 Hr H2.
  destruct (process_file_effects unicode_lower unicode_Nd os stop_words _ H1 eq_refl)
    as [text [_ [E | E]]]; [discriminate|].
  destruct (process_file_effects unicode_lower unicode_Nd os' stop_words _ H2 eq_refl)
    as [text' [[_ [_ [_ [Hr' _]]]] [E' | E']]]; [discriminate|].
  rewrite Hr in Hr'. inversion Hr'; subst text'.
  inversion E as [[Et Ed]]. inversion E' as [[Et' Ed']].
  rewrite Et.
  rewrite !filter_clean_text_tokens.
  now rewrite surviving_tokens_join by apply surviving_tokens_kept.
Qed.

Lemma process_file_rerun_witness :
  let os := willing_system 11 (lit "a fine text") in
  let os' := willing_system 9 (lit "fine text") in
  In (Os.Write (lit "fine text") true)
    (snd (FilterScript.process_file ascii_only_lower ascii_only_Nd os the_and))
  /\ Os.read_input os' = Os.Ok (lit "fine text")
  /\ In (Os.Write (lit "fine text") true)
       (snd (FilterScript.process_file ascii_only_lower ascii_only_Nd os' the_and))
  /\ lit "fine text" = lit "fine text".
Proof.
  intros os os'.
  assert (H1 : In (Os.Write (lit "fine text") true)
                 (snd (FilterScript.process_file ascii_only_lower ascii_only_Nd
                         os the_and)))
    by (vm_compute; tauto).
  assert (H2 : In (Os.Write (lit "fine text") true)
                 (snd (FilterScript.process_file ascii_only_lower ascii_only_Nd
                         os' the_and)))
    by (vm_compute; tauto).
  split; [exact H1|]. split; [reflexivity|]. split; [exact H2|].
  exact (process_file_rerun ascii_only_lower ascii_only_Nd os os' the_and
           _ _ _ _ H1 eq_refl H2).
Defined.

Lemma filter_corpus_stop_words_witness :
  let stop_words := FilterCorpusScript.get_stop_words [lit "the"; lit "and"] in
  In (lit "dont") FilterCorpusScript.contractions
  /\ FilterCorpus.clean_text ascii_only_lower ascii_only_Nd (lit "dont") ∅
     = lit "dont"
  /\ FilterCorpus.clean_text ascii_only_lower ascii_only_Nd (lit "dont") stop_words
     = [].
Proof.
  intros stop_words.
  assert (H : In (lit "dont") FilterCorpusScript.contractions).
  { unfold FilterCorpusScript.contractions. apply List.in_map. simpl. tauto. }
  split; [exact H|].
  exact (proj2 (proj2 (filter_corpus_stop_words ascii_only_lower ascii_only_Nd
                         [lit "the"; lit "and"])) (lit "dont") H).
Defined.
